(** * ROI calculator: the [calc] block of the marketing-cost calculator

    The repository is a Next.js page (English, Spanish and one further
    variant) whose only domain logic is the [useMemo] block named [calc]:
    a waterfall of budget products, three guarded ratios, and a [map]
    over the list of upside scenarios.

    The block computes on JavaScript numbers, that is IEEE 754 binary64
    values.  The embedding is written once over an interface of the
    number operations the block uses and is then read at two instances:

    - [binary64]: the arithmetic the pages run on, given by the
      executable specification of [SpecFloat] at precision 53 and
      maximal exponent 1024 (round to nearest, ties to even);
    - [xrat]: the same special values (NaN, signed infinities) around
      exact rationals, i.e. the block with rounding and overflow removed. *)

From Stdlib Require Import ZArith QArith Qcanon List Bool Lia.
From Stdlib Require Import Floats.SpecFloat.
Import ListNotations.

(** ** Numbers as the block uses them *)

(** The operations of a JavaScript [number] that occur in the source:
    numeric literals, the global [Infinity], the operators [*], [/], [+], [-],
    the comparison [===] and [Number.isFinite]. *)
Class JsNumber (num : Type) : Type := {
  lit : Q -> num;
  Infinity : num;
  mul : num -> num -> num;
  div : num -> num -> num;
  add : num -> num -> num;
  sub : num -> num -> num;
  strict_eq : num -> num -> bool;
  isFinite : num -> bool
}.

Declare Scope js_scope.
Delimit Scope js_scope with js.
Infix "*" := mul : js_scope.
Infix "/" := div : js_scope.
Infix "+" := add : js_scope.
Infix "-" := sub : js_scope.
Infix "===" := strict_eq (at level 70, no associativity) : js_scope.

(** ** Data model *)

(** [type Scenario = { name: "A" | "B" | "C"; perfUplift: number; salesUplift: number }] *)
Inductive ScenarioName : Set := A | B | C.

Record Scenario (num : Type) : Type := {
  name : ScenarioName;
  perfUplift : num;
  salesUplift : num
}.
Arguments name {num} _.
Arguments perfUplift {num} _.
Arguments salesUplift {num} _.

(** The object [{ ...s, incrementalSales, incrementalProfit, roi2yTotal,
    paybackMonthsUpside }]: the three properties of [s] copied by the
    spread (prefixed [sr_] here, since a Rocq module has one name space for
    projections), followed by the four computed ones. *)
Record ScenarioResult (num : Type) : Type := {
  sr_name : ScenarioName;
  sr_perfUplift : num;
  sr_salesUplift : num;
  incrementalSales : num;
  incrementalProfit : num;
  roi2yTotal : num;
  paybackMonthsUpside : num
}.
Arguments sr_name {num} _.
Arguments sr_perfUplift {num} _.
Arguments sr_salesUplift {num} _.
Arguments incrementalSales {num} _.
Arguments incrementalProfit {num} _.
Arguments roi2yTotal {num} _.
Arguments paybackMonthsUpside {num} _.

(** The eight pieces of React state the block reads (its dependency list). *)
Record Inputs (num : Type) : Type := {
  revenue : num;
  marketingPct : num;
  contentPct : num;
  demoAllocPct : num;
  replacementPct : num;
  investmentYear1 : num;
  grossMargin : num;
  scenarios : list (Scenario num)
}.
Arguments revenue {num} _.
Arguments marketingPct {num} _.
Arguments contentPct {num} _.
Arguments demoAllocPct {num} _.
Arguments replacementPct {num} _.
Arguments investmentYear1 {num} _.
Arguments grossMargin {num} _.
Arguments scenarios {num} _.

(** The object the block returns. *)
Record Results (num : Type) : Type := {
  marketingBudget : num;
  contentBudget : num;
  demoBudgetYear1 : num;
  replacedProduction : num;
  demoBudgetYear2 : num;
  annualSavings : num;
  reductionPct : num;
  paybackMonthsBase : num;
  roi2yBase : num;
  scenarioResults : list (ScenarioResult num)
}.
Arguments marketingBudget {num} _.
Arguments contentBudget {num} _.
Arguments demoBudgetYear1 {num} _.
Arguments replacedProduction {num} _.
Arguments demoBudgetYear2 {num} _.
Arguments annualSavings {num} _.
Arguments reductionPct {num} _.
Arguments paybackMonthsBase {num} _.
Arguments roi2yBase {num} _.
Arguments scenarioResults {num} _.

(** The nine base metrics of a result, without the scenario list. *)
Definition base_metrics {num : Type} (r : Results num) : list num :=
  [ marketingBudget r; contentBudget r; demoBudgetYear1 r;
    replacedProduction r; demoBudgetYear2 r; annualSavings r;
    reductionPct r; paybackMonthsBase r; roi2yBase r ].

(** The four derived values of a scenario result. *)
Definition derived_values {num : Type} (r : ScenarioResult num) : list num :=
  [ incrementalSales r; incrementalProfit r; roi2yTotal r; paybackMonthsUpside r ].

(** Every numeric field of the input is finite ([Number.isFinite]). *)
Definition finite_scenario {num : Type} `{JsNumber num} (s : Scenario num) : bool :=
  isFinite (perfUplift s) && isFinite (salesUplift s).

Definition finite_inputs {num : Type} `{JsNumber num} (st : Inputs num) : bool :=
  isFinite (revenue st) && isFinite (marketingPct st) && isFinite (contentPct st)
  && isFinite (demoAllocPct st) && isFinite (replacementPct st)
  && isFinite (investmentYear1 st) && isFinite (grossMargin st)
  && forallb finite_scenario (scenarios st).

(** ** Evaluation that refuses a zero divisor *)

(** To state that no quotient of the block is taken with a divisor that is
    zero, the block is also run with a division that fails on such a
    divisor.  [outcome] is the error monad of that run. *)
Inductive outcome (X : Type) : Type :=
  | Value (x : X)
  | DivisionByZero.
Arguments Value {X} x.
Arguments DivisionByZero {X}.

Definition bind {X Y : Type} (m : outcome X) (k : X -> outcome Y) : outcome Y :=
  match m with
  | Value x => k x
  | DivisionByZero => DivisionByZero
  end.

Notation "x <- m ;; k" := (bind m (fun x => k))
  (at level 61, m at next level, right associativity).

Fixpoint mapM {X Y : Type} (f : X -> outcome Y) (l : list X) : outcome (list Y) :=
  match l with
  | [] => Value []
  | x :: l' => y <- f x ;; ys <- mapM f l' ;; Value (y :: ys)
  end.

Definition checked_div {num : Type} `{JsNumber num} (x y : num) : outcome num :=
  if strict_eq y (lit 0) then DivisionByZero else Value (div x y).

(** ** The calculation block, one embedding per source file *)

Local Open Scope js_scope.

(** [src/app/page.tsx], lines 62-110. *)
Module En.

Definition calc {num : Type} `{JsNumber num} (st : Inputs num) : Results num :=
  let revenue := revenue st in
  let marketingPct := marketingPct st in
  let contentPct := contentPct st in
  let demoAllocPct := demoAllocPct st in
  let replacementPct := replacementPct st in
  let investmentYear1 := investmentYear1 st in
  let grossMargin := grossMargin st in
  let scenarios := scenarios st in
  let marketingBudget := revenue * marketingPct in
  let contentBudget := marketingBudget * contentPct in
  let demoBudgetYear1 := contentBudget * demoAllocPct in
  let replacedProduction := demoBudgetYear1 * replacementPct in
  let demoBudgetYear2 := demoBudgetYear1 - replacedProduction in
  let annualSavings := demoBudgetYear1 - demoBudgetYear2 in
  let reductionPct :=
    if demoBudgetYear1 === lit 0 then lit 0
    else (demoBudgetYear1 - demoBudgetYear2) / demoBudgetYear1 in
  let paybackMonthsBase :=
    if replacedProduction === lit 0 then Infinity
    else (investmentYear1 / replacedProduction) * lit 12 in
  let roi2yBase :=
    if investmentYear1 === lit 0 then Infinity
    else (annualSavings - investmentYear1) / investmentYear1 in
  let scenarioResults :=
    map (fun s =>
      let incrementalSales := revenue * salesUplift s in
      let incrementalProfit := incrementalSales * grossMargin in
      let roi2yTotal :=
        if investmentYear1 === lit 0 then Infinity
        else (annualSavings + incrementalProfit - investmentYear1) / investmentYear1 in
      let paybackMonthsUpside :=
        if annualSavings + incrementalProfit === lit 0 then Infinity
        else (investmentYear1 / (annualSavings + incrementalProfit)) * lit 12 in
      {| sr_name := name s;
         sr_perfUplift := perfUplift s;
         sr_salesUplift := salesUplift s;
         incrementalSales := incrementalSales;
         incrementalProfit := incrementalProfit;
         roi2yTotal := roi2yTotal;
         paybackMonthsUpside := paybackMonthsUpside |}) scenarios in
  {| marketingBudget := marketingBudget;
     contentBudget := contentBudget;
     demoBudgetYear1 := demoBudgetYear1;
     replacedProduction := replacedProduction;
     demoBudgetYear2 := demoBudgetYear2;
     annualSavings := annualSavings;
     reductionPct := reductionPct;
     paybackMonthsBase := paybackMonthsBase;
     roi2yBase := roi2yBase;
     scenarioResults := scenarioResults |}.

(** The same block, every [/] replaced by [checked_div]. *)
Definition calc_checked {num : Type} `{JsNumber num} (st : Inputs num)
  : outcome (Results num) :=
  let revenue := revenue st in
  let marketingPct := marketingPct st in
  let contentPct := contentPct st in
  let demoAllocPct := demoAllocPct st in
  let replacementPct := replacementPct st in
  let investmentYear1 := investmentYear1 st in
  let grossMargin := grossMargin st in
  let scenarios := scenarios st in
  let marketingBudget := revenue * marketingPct in
  let contentBudget := marketingBudget * contentPct in
  let demoBudgetYear1 := contentBudget * demoAllocPct in
  let replacedProduction := demoBudgetYear1 * replacementPct in
  let demoBudgetYear2 := demoBudgetYear1 - replacedProduction in
  let annualSavings := demoBudgetYear1 - demoBudgetYear2 in
  reductionPct <-
    (if demoBudgetYear1 === lit 0 then Value (lit 0)
     else checked_div (demoBudgetYear1 - demoBudgetYear2) demoBudgetYear1) ;;
  paybackMonthsBase <-
    (if replacedProduction === lit 0 then Value Infinity
     else q <- checked_div investmentYear1 replacedProduction ;; Value (q * lit 12)) ;;
  roi2yBase <-
    (if investmentYear1 === lit 0 then Value Infinity
     else checked_div (annualSavings - investmentYear1) investmentYear1) ;;
  scenarioResults <-
    mapM (fun s =>
      let incrementalSales := revenue * salesUplift s in
      let incrementalProfit := incrementalSales * grossMargin in
      roi2yTotal <-
        (if investmentYear1 === lit 0 then Value Infinity
         else checked_div (annualSavings + incrementalProfit - investmentYear1)
                          investmentYear1) ;;
      paybackMonthsUpside <-
        (if annualSavings + incrementalProfit === lit 0 then Value Infinity
         else q <- checked_div investmentYear1 (annualSavings + incrementalProfit) ;;
              Value (q * lit 12)) ;;
      Value {| sr_name := name s;
               sr_perfUplift := perfUplift s;
               sr_salesUplift := salesUplift s;
               incrementalSales := incrementalSales;
               incrementalProfit := incrementalProfit;
               roi2yTotal := roi2yTotal;
               paybackMonthsUpside := paybackMonthsUpside |}) scenarios ;;
  Value {| marketingBudget := marketingBudget;
           contentBudget := contentBudget;
           demoBudgetYear1 := demoBudgetYear1;
           replacedProduction := replacedProduction;
           demoBudgetYear2 := demoBudgetYear2;
           annualSavings := annualSavings;
           reductionPct := reductionPct;
           paybackMonthsBase := paybackMonthsBase;
           roi2yBase := roi2yBase;
           scenarioResults := scenarioResults |}.

End En.

(** [src/app/es/page.tsx], lines 172-220. *)
Module Es.

Definition calc {num : Type} `{JsNumber num} (st : Inputs num) : Results num :=
  let revenue := revenue st in
  let marketingPct := marketingPct st in
  let contentPct := contentPct st in
  let demoAllocPct := demoAllocPct st in
  let replacementPct := replacementPct st in
  let investmentYear1 := investmentYear1 st in
  let grossMargin := grossMargin st in
  let scenarios := scenarios st in
  let marketingBudget := revenue * marketingPct in
  let contentBudget := marketingBudget * contentPct in
  let demoBudgetYear1 := contentBudget * demoAllocPct in
  let replacedProduction := demoBudgetYear1 * replacementPct in
  let demoBudgetYear2 := demoBudgetYear1 - replacedProduction in
  let annualSavings := demoBudgetYear1 - demoBudgetYear2 in
  let reductionPct :=
    if demoBudgetYear1 === lit 0 then lit 0
    else (demoBudgetYear1 - demoBudgetYear2) / demoBudgetYear1 in
  let paybackMonthsBase :=
    if replacedProduction === lit 0 then Infinity
    else (investmentYear1 / replacedProduction) * lit 12 in
  let roi2yBase :=
    if investmentYear1 === lit 0 then Infinity
    else (annualSavings - investmentYear1) / investmentYear1 in
  let scenarioResults :=
    map (fun s =>
      let incrementalSales := revenue * salesUplift s in
      let incrementalProfit := incrementalSales * grossMargin in
      let roi2yTotal :=
        if investmentYear1 === lit 0 then Infinity
        else (annualSavings + incrementalProfit - investmentYear1) / investmentYear1 in
      let paybackMonthsUpside :=
        if annualSavings + incrementalProfit === lit 0 then Infinity
        else (investmentYear1 / (annualSavings + incrementalProfit)) * lit 12 in
      {| sr_name := name s;
         sr_perfUplift := perfUplift s;
         sr_salesUplift := salesUplift s;
         incrementalSales := incrementalSales;
         incrementalProfit := incrementalProfit;
         roi2yTotal := roi2yTotal;
         paybackMonthsUpside := paybackMonthsUpside |}) scenarios in
  {| marketingBudget := marketingBudget;
     contentBudget := contentBudget;
     demoBudgetYear1 := demoBudgetYear1;
     replacedProduction := replacedProduction;
     demoBudgetYear2 := demoBudgetYear2;
     annualSavings := annualSavings;
     reductionPct := reductionPct;
     paybackMonthsBase := paybackMonthsBase;
     roi2yBase := roi2yBase;
     scenarioResults := scenarioResults |}.

End Es.

(** [src/unnamed/part_000], lines 143-191. *)
Module Variant.

Definition calc {num : Type} `{JsNumber num} (st : Inputs num) : Results num :=
  let revenue := revenue st in
  let marketingPct := marketingPct st in
  let contentPct := contentPct st in
  let demoAllocPct := demoAllocPct st in
  let replacementPct := replacementPct st in
  let investmentYear1 := investmentYear1 st in
  let grossMargin := grossMargin st in
  let scenarios := scenarios st in
  let marketingBudget := revenue * marketingPct in
  let contentBudget := marketingBudget * contentPct in
  let demoBudgetYear1 := contentBudget * demoAllocPct in
  let replacedProduction := demoBudgetYear1 * replacementPct in
  let demoBudgetYear2 := demoBudgetYear1 - replacedProduction in
  let annualSavings := demoBudgetYear1 - demoBudgetYear2 in
  let reductionPct :=
    if demoBudgetYear1 === lit 0 then lit 0
    else (demoBudgetYear1 - demoBudgetYear2) / demoBudgetYear1 in
  let paybackMonthsBase :=
    if replacedProduction === lit 0 then Infinity
    else (investmentYear1 / replacedProduction) * lit 12 in
  let roi2yBase :=
    if investmentYear1 === lit 0 then Infinity
    else (annualSavings - investmentYear1) / investmentYear1 in
  let scenarioResults :=
    map (fun s =>
      let incrementalSales := revenue * salesUplift s in
      let incrementalProfit := incrementalSales * grossMargin in
      let roi2yTotal :=
        if investmentYear1 === lit 0 then Infinity
        else (annualSavings + incrementalProfit - investmentYear1) / investmentYear1 in
      let paybackMonthsUpside :=
        if annualSavings + incrementalProfit === lit 0 then Infinity
        else (investmentYear1 / (annualSavings + incrementalProfit)) * lit 12 in
      {| sr_name := name s;
         sr_perfUplift := perfUplift s;
         sr_salesUplift := salesUplift s;
         incrementalSales := incrementalSales;
         incrementalProfit := incrementalProfit;
         roi2yTotal := roi2yTotal;
         paybackMonthsUpside := paybackMonthsUpside |}) scenarios in
  {| marketingBudget := marketingBudget;
     contentBudget := contentBudget;
     demoBudgetYear1 := demoBudgetYear1;
     replacedProduction := replacedProduction;
     demoBudgetYear2 := demoBudgetYear2;
     annualSavings := annualSavings;
     reductionPct := reductionPct;
     paybackMonthsBase := paybackMonthsBase;
     roi2yBase := roi2yBase;
     scenarioResults := scenarioResults |}.

End Variant.

(** ** binary64: the numbers the pages compute with *)

Definition binary64 : Type := spec_float.

Definition prec : Z := 53.
Definition emax : Z := 1024.

(** A decimal literal denotes the binary64 value nearest to its rational
    value; the correctly rounded quotient of numerator by denominator is
    that value. *)
Definition b64_lit (q : Q) : binary64 :=
  match Qnum q with
  | Z0 => S754_zero false
  | Zpos n => SFdiv prec emax (S754_finite false n 0) (S754_finite false (Qden q) 0)
  | Zneg n => SFdiv prec emax (S754_finite true n 0) (S754_finite false (Qden q) 0)
  end.

Definition b64_isFinite (x : binary64) : bool :=
  match x with
  | S754_zero _ | S754_finite _ _ _ => true
  | S754_infinity _ | S754_nan => false
  end.

#[export] Instance binary64_number : JsNumber binary64 := {
  lit := b64_lit;
  Infinity := S754_infinity false;
  mul := SFmul prec emax;
  div := SFdiv prec emax;
  add := SFadd prec emax;
  sub := SFsub prec emax;
  strict_eq := SFeqb;
  isFinite := b64_isFinite
}.

(** The initial React state: [useState] defaults of the page. *)
Definition default_scenarios {num : Type} `{JsNumber num} : list (Scenario num) :=
  [ {| name := A; perfUplift := lit 0.05; salesUplift := lit 0.0025 |};
    {| name := B; perfUplift := lit 0.1; salesUplift := lit 0.005 |};
    {| name := C; perfUplift := lit 0.15; salesUplift := lit 0.01 |} ].

Definition default_inputs {num : Type} `{JsNumber num} : Inputs num :=
  {| revenue := lit 14000000;
     marketingPct := lit 0.07;
     contentPct := lit 0.2;
     demoAllocPct := lit 0.5;
     replacementPct := lit 0.6;
     investmentYear1 := lit 50000;
     grossMargin := lit 0.4;
     scenarios := default_scenarios |}.

(** ** Exact arithmetic: the block without rounding or overflow *)

(** Rationals in canonical form, with the special values of a JavaScript
    number around them.  Finite values are combined exactly; the special
    values combine as IEEE 754 prescribes (there is a single zero). *)
Inductive xrat : Type :=
  | XNaN
  | XInf (s : bool)
  | XFin (q : Qc).

Definition Qc_eqb (p q : Qc) : bool := Qeq_bool p q.
Definition Qc_negb (q : Qc) : bool := (Qnum q <? 0)%Z.

Definition xmul (x y : xrat) : xrat :=
  match x, y with
  | XNaN, _ | _, XNaN => XNaN
  | XInf s, XInf t => XInf (xorb s t)
  | XInf s, XFin q | XFin q, XInf s =>
      if Qc_eqb q (Q2Qc 0) then XNaN else XInf (xorb s (Qc_negb q))
  | XFin p, XFin q => XFin (p * q)%Qc
  end.

Definition xadd (x y : xrat) : xrat :=
  match x, y with
  | XNaN, _ | _, XNaN => XNaN
  | XInf s, XInf t => if Bool.eqb s t then XInf s else XNaN
  | XInf s, XFin _ | XFin _, XInf s => XInf s
  | XFin p, XFin q => XFin (p + q)%Qc
  end.

Definition xsub (x y : xrat) : xrat :=
  match x, y with
  | XNaN, _ | _, XNaN => XNaN
  | XInf s, XInf t => if Bool.eqb s t then XNaN else XInf s
  | XInf s, XFin _ => XInf s
  | XFin _, XInf s => XInf (negb s)
  | XFin p, XFin q => XFin (p - q)%Qc
  end.

Definition xdiv (x y : xrat) : xrat :=
  match x, y with
  | XNaN, _ | _, XNaN => XNaN
  | XInf _, XInf _ => XNaN
  | XInf s, XFin q => XInf (xorb s (Qc_negb q))
  | XFin _, XInf _ => XFin (Q2Qc 0)
  | XFin p, XFin q =>
      if Qc_eqb q (Q2Qc 0)
      then (if Qc_eqb p (Q2Qc 0) then XNaN else XInf (Qc_negb p))
      else XFin (p / q)%Qc
  end.

Definition xeqb (x y : xrat) : bool :=
  match x, y with
  | XFin p, XFin q => Qc_eqb p q
  | XInf s, XInf t => Bool.eqb s t
  | _, _ => false
  end.

Definition x_isFinite (x : xrat) : bool :=
  match x with XFin _ => true | _ => false end.

#[export] Instance xrat_number : JsNumber xrat := {
  lit := fun q => XFin (Q2Qc q);
  Infinity := XInf false;
  mul := xmul;
  div := xdiv;
  add := xadd;
  sub := xsub;
  strict_eq := xeqb;
  isFinite := x_isFinite
}.


(** ** Editing one scenario *)

(** [Partial<Scenario>]: each property present or absent. *)
Record ScenarioPatch (num : Type) : Type := {
  patch_name : option ScenarioName;
  patch_perfUplift : option num;
  patch_salesUplift : option num
}.
Arguments patch_name {num} _.
Arguments patch_perfUplift {num} _.
Arguments patch_salesUplift {num} _.

(** [{ ...s, ...patch }] *)
Definition spread_patch {num : Type} (s : Scenario num) (patch : ScenarioPatch num)
  : Scenario num :=
  {| name := match patch_name patch with Some n => n | None => name s end;
     perfUplift := match patch_perfUplift patch with Some x => x | None => perfUplift s end;
     salesUplift := match patch_salesUplift patch with Some x => x | None => salesUplift s end |}.

(** [Array.prototype.map] with the element index, counted from [i]. *)
Fixpoint map_index {X Y : Type} (f : X -> nat -> Y) (i : nat) (l : list X) : list Y :=
  match l with
  | [] => []
  | x :: l' => f x i :: map_index f (S i) l'
  end.

(** [prev.map((s, i) => (i === idx ? { ...s, ...patch } : s))], the state
    update of [setScenario(idx, patch)]. *)
Definition setScenario {num : Type} (idx : nat) (patch : ScenarioPatch num)
  (prev : list (Scenario num)) : list (Scenario num) :=
  map_index (fun s i => if Nat.eqb i idx then spread_patch s patch else s) 0 prev.

(** The patch [{ ...p1, ...p2 }]: the properties of [p2] override. *)
Definition spread_patches {num : Type} (p1 p2 : ScenarioPatch num) : ScenarioPatch num :=
  {| patch_name := match patch_name p2 with Some n => Some n | None => patch_name p1 end;
     patch_perfUplift :=
       match patch_perfUplift p2 with Some x => Some x | None => patch_perfUplift p1 end;
     patch_salesUplift :=
       match patch_salesUplift p2 with Some x => Some x | None => patch_salesUplift p1 end |}.

(** The patch [{}]. *)
Definition empty_patch {num : Type} : ScenarioPatch num :=
  {| patch_name := None; patch_perfUplift := None; patch_salesUplift := None |}.

Definition with_scenarios {num : Type} (st : Inputs num) (l : list (Scenario num))
  : Inputs num :=
  {| revenue := revenue st;
     marketingPct := marketingPct st;
     contentPct := contentPct st;
     demoAllocPct := demoAllocPct st;
     replacementPct := replacementPct st;
     investmentYear1 := investmentYear1 st;
     grossMargin := grossMargin st;
     scenarios := l |}.

(** ** Relations between two inputs *)

(** The seven scalar inputs agree. *)
Definition same_scalars {num : Type} (st1 st2 : Inputs num) : Prop :=
  revenue st1 = revenue st2 /\ marketingPct st1 = marketingPct st2 /\
  contentPct st1 = contentPct st2 /\ demoAllocPct st1 = demoAllocPct st2 /\
  replacementPct st1 = replacementPct st2 /\
  investmentYear1 st1 = investmentYear1 st2 /\ grossMargin st1 = grossMargin st2.

(** Two scenarios that agree on everything but [perfUplift]. *)
Definition same_but_perfUplift {num : Type} (s1 s2 : Scenario num) : Prop :=
  name s1 = name s2 /\ salesUplift s1 = salesUplift s2.

(** Two inputs identical except in the [perfUplift] of their scenarios. *)
Definition differ_in_perfUplift_only {num : Type} (st1 st2 : Inputs num) : Prop :=
  same_scalars st1 st2 /\ Forall2 same_but_perfUplift (scenarios st1) (scenarios st2).

(** Two inputs identical except in the scenario at index [k]. *)
Definition differ_at_scenario_only {num : Type} (k : nat) (st1 st2 : Inputs num) : Prop :=
  same_scalars st1 st2 /\
  length (scenarios st1) = length (scenarios st2) /\
  forall j, j <> k -> nth_error (scenarios st1) j = nth_error (scenarios st2) j.

(** ** Concrete inputs *)

(** The default inputs with the replacement share set to 25 percent. *)
Definition quarter_replacement_inputs {num : Type} `{JsNumber num} : Inputs num :=
  {| revenue := lit 14000000;
     marketingPct := lit 0.07;
     contentPct := lit 0.2;
     demoAllocPct := lit 0.5;
     replacementPct := lit 0.25;
     investmentYear1 := lit 50000;
     grossMargin := lit 0.4;
     scenarios := default_scenarios |}.

(** Revenue 1, every share at 100 percent, and an investment of 1e308. *)
Definition huge_investment_inputs {num : Type} `{JsNumber num} : Inputs num :=
  {| revenue := lit 1;
     marketingPct := lit 1;
     contentPct := lit 1;
     demoAllocPct := lit 1;
     replacementPct := lit 1;
     investmentYear1 := lit 1e308;
     grossMargin := lit 0.4;
     scenarios := default_scenarios |}.

(** Revenue 1e308, every share at 100 percent, except a replacement share
    of 1000 percent; the default investment. *)
Definition huge_revenue_inputs {num : Type} `{JsNumber num} : Inputs num :=
  {| revenue := lit 1e308;
     marketingPct := lit 1;
     contentPct := lit 1;
     demoAllocPct := lit 1;
     replacementPct := lit 10;
     investmentYear1 := lit 50000;
     grossMargin := lit 0.4;
     scenarios := default_scenarios |}.

(** Everything zero, with the default scenarios. *)
Definition zero_inputs {num : Type} `{JsNumber num} : Inputs num :=
  {| revenue := lit 0;
     marketingPct := lit 0;
     contentPct := lit 0;
     demoAllocPct := lit 0;
     replacementPct := lit 0;
     investmentYear1 := lit 0;
     grossMargin := lit 0;
     scenarios := default_scenarios |}.

(** A binary64 value is well formed when its mantissa and exponent are in
    canonical form for the format. *)
Definition b64_valid_scenario (s : Scenario binary64) : bool :=
  valid_binary prec emax (perfUplift s) && valid_binary prec emax (salesUplift s).

Definition b64_valid_inputs (st : Inputs binary64) : bool :=
  valid_binary prec emax (revenue st) && valid_binary prec emax (marketingPct st)
  && valid_binary prec emax (contentPct st) && valid_binary prec emax (demoAllocPct st)
  && valid_binary prec emax (replacementPct st)
  && valid_binary prec emax (investmentYear1 st)
  && valid_binary prec emax (grossMargin st)
  && forallb b64_valid_scenario (scenarios st).

(** ** Strings *)

(** A JavaScript string is a sequence of UTF-16 code units. *)
Definition jsstring : Type := list N.

(** The code units matched by [\s] in a regular expression; [trim] strips
    the same set (white space and line terminators). *)
Definition is_whitespace (c : N) : bool :=
  ((9 <=? c) && (c <=? 13) || (c =? 32) || (c =? 160) || (c =? 5760)
   || (8192 <=? c) && (c <=? 8202) || (c =? 8232) || (c =? 8233)
   || (c =? 8239) || (c =? 8287) || (c =? 12288) || (c =? 65279))%N.

Definition comma : N := 44.
Definition full_stop : N := 46.

Fixpoint drop_leading_whitespace (s : jsstring) : jsstring :=
  match s with
  | [] => []
  | c :: s' => if is_whitespace c then drop_leading_whitespace s' else s
  end.

(** [s.trim()] *)
Definition trim (s : jsstring) : jsstring :=
  rev (drop_leading_whitespace (rev (drop_leading_whitespace s))).

(** [s.replace(/c/g, "")] for a single code unit [c]. *)
Definition remove_all (c : N) (s : jsstring) : jsstring :=
  filter (fun x => negb (x =? c)%N) s.

(** [s.replace(/\s/g, "")] *)
Definition remove_whitespace (s : jsstring) : jsstring :=
  filter (fun x => negb (is_whitespace x)) s.

(** [s.replace(/c/g, d)] for single code units [c] and [d]. *)
Definition replace_all (c d : N) (s : jsstring) : jsstring :=
  map (fun x => if (x =? c)%N then d else x) s.

(** The text of one number with the roles of ',' and '.' exchanged: the
    English and the Spanish way of writing the same digits. *)
Definition swap_separators (s : jsstring) : jsstring :=
  map (fun x => if (x =? comma)%N then full_stop
                else if (x =? full_stop)%N then comma else x) s.

(** ** The [Math] functions of the input handlers, on binary64 *)

(** [Math.max(a, b)]: NaN if either is NaN; of two zeros the positive one. *)
Definition b64_max (a b : binary64) : binary64 :=
  match a, b with
  | S754_nan, _ | _, S754_nan => S754_nan
  | S754_zero sa, S754_zero sb => S754_zero (sa && sb)
  | _, _ => if SFltb a b then b else a
  end.

(** [Math.round(x)]: the nearest integer, ties towards positive infinity;
    the sign of [x] is kept on a zero result. *)
Definition b64_round (x : binary64) : binary64 :=
  match x with
  | S754_finite s m e =>
      if (0 <=? e)%Z then x
      else
        let d := Z.pow 2 (- e) in
        let q := (Zpos m / d)%Z in
        let r := (Zpos m mod d)%Z in
        let k := if s then (if (d <? 2 * r)%Z then q + 1 else q)%Z
                 else (if (d <=? 2 * r)%Z then q + 1 else q)%Z in
        match k with
        | Zpos p => binary_round prec emax s p 0
        | _ => S754_zero s
        end
  | _ => x
  end.

(** The value is zero or positive (and then possibly infinite): neither
    NaN, nor negative, nor the negative zero. *)
Definition b64_nonneg (x : binary64) : bool :=
  match x with
  | S754_zero false | S754_finite false _ _ | S754_infinity false => true
  | _ => false
  end.

(** What a rounding step can return: a zero, a finite value or an infinity
    of the requested sign. *)
Definition has_sign (s : bool) (x : binary64) : Prop :=
  x = S754_zero s \/ (exists m e, x = S754_finite s m e) \/ x = S754_infinity s.

(** The value is a number. *)
Definition not_nan (x : binary64) : Prop := x <> S754_nan.


(** The value is a whole number. *)
Definition b64_is_integer (x : binary64) : bool :=
  match x with
  | S754_zero _ => true
  | S754_finite _ m e =>
      if (0 <=? e)%Z then true else (Zpos m mod Z.pow 2 (- e) =? 0)%Z
  | _ => false
  end.

(** ** Input handlers *)

(** The handlers call [Number] on the typed text; the conversion of text
    to a number is the runtime's, so it is a parameter here. *)

(** [src/app/page.tsx]: lines 6-9, 156-173 and 212-216. *)
Module EnUI.

Definition clampNumber {num : Type} `{JsNumber num}
  (Number : jsstring -> num) (v : jsstring) (fallback : num) : num :=
  let n := Number (remove_all comma v) in
  if isFinite n then n else fallback.

(** [onChange] of the revenue field: the next [revenue] state. *)
Definition onRevenueChange (Number : jsstring -> binary64)
  (value : jsstring) (revenue : binary64) : binary64 :=
  let raw := remove_all comma value in
  let n := clampNumber Number raw revenue in
  b64_max (lit 0) (b64_round n).

(** [PercentRow]: the number shown for a stored fraction. *)
Definition percentShown (value : binary64) : binary64 :=
  b64_round (value * lit 10000) / lit 100.

(** [PercentRow]: [onChange] of the inner [InputRow], which shows
    [percentShown value] and falls back to it: the next stored fraction. *)
Definition onPercentChange (Number : jsstring -> binary64)
  (text : jsstring) (value : binary64) : binary64 :=
  let n := clampNumber Number text (percentShown value) in
  b64_max (lit 0) n / lit 100.

End EnUI.

(** [src/app/es/page.tsx]: lines 13-21, 31-34, 70-150 and 331-335. *)
Module EsUI.

Definition parseEsNumber {num : Type} `{JsNumber num}
  (Number : jsstring -> num) (NaN : num) (input : jsstring) : num :=
  let s := replace_all comma full_stop
             (remove_all full_stop (remove_whitespace (trim input))) in
  let n := Number s in
  if isFinite n then n else NaN.

Definition clampNumber {num : Type} `{JsNumber num}
  (Number : jsstring -> num) (NaN : num) (v : jsstring) (fallback : num) : num :=
  let n := parseEsNumber Number NaN v in
  if isFinite n then n else fallback.

Definition onRevenueChange (Number : jsstring -> binary64)
  (value : jsstring) (revenue : binary64) : binary64 :=
  let raw := value in
  let n := clampNumber Number S754_nan raw revenue in
  b64_max (lit 0) (b64_round n).

(** [onBlur] of [StableNumberInput]: the value handed to [onValue]. *)
Definition onBlur (Number : jsstring -> binary64)
  (min : option binary64) (draft : jsstring) (value : binary64) : binary64 :=
  let n := parseEsNumber Number S754_nan draft in
  if isFinite n
  then match min with Some lo => b64_max lo n | None => n end
  else value.

(** [StablePercentInput]: the next stored fraction after a blur. *)
Definition onPercentBlur (Number : jsstring -> binary64)
  (draft : jsstring) (value : binary64) : binary64 :=
  let shown := b64_round (value * lit 10000) / lit 100 in
  b64_max (lit 0) (onBlur Number (Some (lit 0)) draft shown) / lit 100.

End EsUI.

(** [src/unnamed/part_000]: lines 6-9, 42-121 and 293-297. *)
Module VariantUI.

Definition clampNumber {num : Type} `{JsNumber num}
  (Number : jsstring -> num) (v : jsstring) (fallback : num) : num :=
  let n := Number (remove_all comma v) in
  if isFinite n then n else fallback.

Definition onRevenueChange (Number : jsstring -> binary64)
  (value : jsstring) (revenue : binary64) : binary64 :=
  let raw := remove_all comma value in
  let n := clampNumber Number raw revenue in
  b64_max (lit 0) (b64_round n).

Definition onBlur (Number : jsstring -> binary64)
  (min : option binary64) (draft : jsstring) (value : binary64) : binary64 :=
  let raw := trim (remove_all comma draft) in
  let n := Number raw in
  if isFinite n
  then match min with Some lo => b64_max lo n | None => n end
  else value.

Definition onPercentBlur (Number : jsstring -> binary64)
  (draft : jsstring) (value : binary64) : binary64 :=
  let shown := b64_round (value * lit 10000) / lit 100 in
  b64_max (lit 0) (onBlur Number (Some (lit 0)) draft shown) / lit 100.

End VariantUI.

(** ** Result cells *)

(** The text of the cells that show a ratio.  How a finite number is
    printed ([toFixed], [toLocaleString]) is the runtime's and a parameter;
    the guards around it are the pages'. *)
Definition dash : jsstring := [8212%N].
Definition percent_sign : N := 37.
Definition digit_zero : N := 48.
Definition dollar_sign : N := 36.

(** [pct(n, digits)]; [print] stands for [(x).toFixed(digits)] in the
    English page and [(x).toLocaleString("es-ES", ...)] in the Spanish one. *)
Definition pct {num : Type} `{JsNumber num}
  (print : num -> nat -> jsstring) (n : num) (digits : nat) : jsstring :=
  if negb (isFinite n) then [digit_zero; percent_sign]
  else print (n * lit 100) digits ++ [percent_sign].

(** [num(n, digits)] *)
Definition num_text {num : Type} `{JsNumber num}
  (print : num -> nat -> jsstring) (n : num) (digits : nat) : jsstring :=
  if negb (isFinite n) then [digit_zero] else print n digits.

(** [{Number.isFinite(calc.roi2yBase) ? pct(calc.roi2yBase, 0) : "—"}] *)
Definition roi2yBase_cell {num : Type} `{JsNumber num}
  (print : num -> nat -> jsstring) (r : Results num) : jsstring :=
  if isFinite (roi2yBase r) then pct print (roi2yBase r) 0 else dash.

(** [{Number.isFinite(calc.paybackMonthsBase) ? num(calc.paybackMonthsBase, 1) : "—"}] *)
Definition paybackMonthsBase_cell {num : Type} `{JsNumber num}
  (print : num -> nat -> jsstring) (r : Results num) : jsstring :=
  if isFinite (paybackMonthsBase r) then num_text print (paybackMonthsBase r) 1
  else dash.

(** [{pct(s.roi2yTotal, 0)}], the scenario table's ROI cell. *)
Definition roi2yTotal_cell {num : Type} `{JsNumber num}
  (print : num -> nat -> jsstring) (s : ScenarioResult num) : jsstring :=
  pct print (roi2yTotal s) 0.

(** [{Number.isFinite(s.paybackMonthsUpside) ? num(s.paybackMonthsUpside, 1) : "—"}] *)
Definition paybackMonthsUpside_cell {num : Type} `{JsNumber num}
  (print : num -> nat -> jsstring) (s : ScenarioResult num) : jsstring :=
  if isFinite (paybackMonthsUpside s) then num_text print (paybackMonthsUpside s) 1
  else dash.

(** * Properties *)

(** ** Literals *)

(** The literals of the source denote the expected binary64 values
    (sign, 53-bit mantissa, exponent). *)
Example b64_lit_0_07 : b64_lit 0.07 = S754_finite false 5044031582654956 (-56).
Proof. vm_compute. reflexivity. Qed.

Example b64_lit_0_6 : b64_lit 0.6 = S754_finite false 5404319552844595 (-53).
Proof. vm_compute. reflexivity. Qed.

Example b64_lit_12 : b64_lit 12 = S754_finite false 6755399441055744 (-49).
Proof. vm_compute. reflexivity. Qed.

Example b64_lit_1e308 : b64_lit 1e308 = S754_finite false 5010420900022432 971.
Proof. vm_compute. reflexivity. Qed.

(** The concrete inputs used below are finite and well formed. *)
Example concrete_inputs_finite :
  forallb (fun st => finite_inputs st && b64_valid_inputs st)
          [default_inputs; quarter_replacement_inputs; huge_investment_inputs;
           huge_revenue_inputs; zero_inputs] = true.
Proof. vm_compute. reflexivity. Qed.

(** ** Shared lemmas *)

Section Generic.
Context {num : Type} `{JsNumber num}.

Lemma calc_scenarioResults_length (st : Inputs num) :
  length (scenarioResults (En.calc st)) = length (scenarios st).
Proof. unfold En.calc; cbn [scenarioResults]. apply length_map. Qed.

(** A guarded quotient never reaches [checked_div] with a zero divisor. *)
Lemma guarded_div_checked (d n sentinel : num) :
  (if d === lit 0 then Value sentinel else checked_div n d)
  = Value (if d === lit 0 then sentinel else n / d).
Proof. unfold checked_div. destruct (d === lit 0); reflexivity. Qed.

Lemma guarded_months_checked (d n : num) :
  (if d === lit 0 then Value Infinity
   else q <- checked_div n d ;; Value (q * lit 12))
  = Value (if d === lit 0 then Infinity else (n / d) * lit 12).
Proof. unfold checked_div. destruct (d === lit 0); reflexivity. Qed.

Lemma mapM_Value {X Y : Type} (f : X -> outcome Y) (g : X -> Y) (l : list X) :
  (forall x, f x = Value (g x)) -> mapM f l = Value (map g l).
Proof.
  intros Hfg. induction l as [| x l IH]; cbn [mapM map]; [reflexivity |].
  rewrite Hfg, IH. reflexivity.
Qed.

Lemma calc_checked_Value (st : Inputs num) :
  En.calc_checked st = Value (En.calc st).
Proof.
  unfold En.calc_checked, En.calc.
  rewrite guarded_div_checked, guarded_months_checked, guarded_div_checked.
  cbn [bind].
  erewrite mapM_Value; [reflexivity |].
  intros s. rewrite guarded_div_checked, guarded_months_checked. reflexivity.
Qed.

Lemma calc_roi2yTotal_sentinel (st : Inputs num) :
  (investmentYear1 st === lit 0) = true ->
  Forall (fun r => roi2yTotal r = Infinity) (scenarioResults (En.calc st)).
Proof.
  intros Hz. unfold En.calc; cbn [scenarioResults].
  apply Forall_map, Forall_forall. intros s _. cbn [roi2yTotal].
  rewrite Hz. reflexivity.
Qed.

Lemma calc_paybackMonthsUpside_sentinel (st : Inputs num) :
  Forall (fun r =>
            (annualSavings (En.calc st) + incrementalProfit r === lit 0) = true ->
            paybackMonthsUpside r = Infinity)
         (scenarioResults (En.calc st)).
Proof.
  unfold En.calc; cbn [scenarioResults annualSavings].
  apply Forall_map, Forall_forall. intros s _.
  cbn [paybackMonthsUpside incrementalProfit]. intros Hz.
  rewrite Hz. reflexivity.
Qed.
End Generic.

(** ** The three copies of the block *)

(** C9: the calculation blocks of the English page, of the Spanish page and
    of the third source variant are the same function: on every input, in
    every arithmetic, they return the same results (base metrics and
    scenario results). *)
Theorem calc_variants_agree :
  forall (num : Type) (N : JsNumber num) (st : Inputs num),
    Es.calc st = En.calc st /\ Variant.calc st = En.calc st.
Proof. intros num N st. split; reflexivity. Qed.

(** ** The scenario fan-out *)

(** C2: the scenario results are the scenarios mapped one by one, in input
    order: the list has the length of the scenario list, and its entry at
    any index is built from the scenario at that index alone, carrying
    [name], [perfUplift] and [salesUplift] through and computing the four
    derived values by the stated formulas with their two guards. *)
Theorem calc_scenarioResults_pointwise :
  forall (num : Type) (N : JsNumber num) (st : Inputs num),
    length (scenarioResults (En.calc st)) = length (scenarios st) /\
    forall k : nat,
      nth_error (scenarioResults (En.calc st)) k =
      option_map
        (fun s =>
           {| sr_name := name s;
              sr_perfUplift := perfUplift s;
              sr_salesUplift := salesUplift s;
              incrementalSales := revenue st * salesUplift s;
              incrementalProfit := (revenue st * salesUplift s) * grossMargin st;
              roi2yTotal :=
                if investmentYear1 st === lit 0 then Infinity
                else (annualSavings (En.calc st)
                      + (revenue st * salesUplift s) * grossMargin st
                      - investmentYear1 st) / investmentYear1 st;
              paybackMonthsUpside :=
                if annualSavings (En.calc st)
                   + (revenue st * salesUplift s) * grossMargin st === lit 0
                then Infinity
                else (investmentYear1 st
                      / (annualSavings (En.calc st)
                         + (revenue st * salesUplift s) * grossMargin st))
                     * lit 12 |})
        (nth_error (scenarios st) k).
Proof.
  intros num N st. split.
  - apply calc_scenarioResults_length.
  - intros k. unfold En.calc; cbn [scenarioResults annualSavings].
    apply nth_error_map.
Qed.

(** ** The chain of base metrics *)

(** C1, as stated, fails on the code: on the default inputs the binary64
    product 14000000 * 0.07 is not 980000 (it is the next value above). *)
Lemma default_marketingBudget_is_rounded :
  marketingBudget (En.calc (num := binary64) default_inputs) <> lit 980000
  /\ (marketingBudget (En.calc (num := binary64) default_inputs) === lit 980000) = false.
Proof. split; [vm_compute; discriminate | vm_compute; reflexivity]. Qed.

(** Equality of two exact values: canonical rationals are equal when they
    are equal as fractions. *)
Lemma XFin_eq (p q : Qc) : (p == q)%Q -> XFin p = XFin q.
Proof. intros Hpq. f_equal. apply Qc_is_canon, Hpq. Qed.

(** C1 (amended): in every arithmetic the block produces the base results
    by the nine-step chain, in the stated order; on the default inputs
    the stated values are the results in exact arithmetic, and in binary64
    the block returns the values whose shortest decimal forms are
    980000.0000000001, 196000.00000000003, 98000.00000000001,
    58800.00000000001, 39200.00000000001, 58800.00000000001, 0.6 and
    0.17600000000000016 for the base metrics listed, and 35000, 14000 and
    0.456 for scenario A. *)
Theorem calc_chain_and_default_values :
  (forall (num : Type) (N : JsNumber num) (st : Inputs num),
      let r := En.calc st in
      marketingBudget r = revenue st * marketingPct st /\
      contentBudget r = marketingBudget r * contentPct st /\
      demoBudgetYear1 r = contentBudget r * demoAllocPct st /\
      replacedProduction r = demoBudgetYear1 r * replacementPct st /\
      demoBudgetYear2 r = demoBudgetYear1 r - replacedProduction r /\
      annualSavings r = demoBudgetYear1 r - demoBudgetYear2 r /\
      reductionPct r =
        (if demoBudgetYear1 r === lit 0 then lit 0
         else (demoBudgetYear1 r - demoBudgetYear2 r) / demoBudgetYear1 r) /\
      paybackMonthsBase r =
        (if replacedProduction r === lit 0 then Infinity
         else (investmentYear1 st / replacedProduction r) * lit 12) /\
      roi2yBase r =
        (if investmentYear1 st === lit 0 then Infinity
         else (annualSavings r - investmentYear1 st) / investmentYear1 st))
  /\
  (let r := En.calc (num := xrat) default_inputs in
   marketingBudget r = lit 980000 /\
   contentBudget r = lit 196000 /\
   demoBudgetYear1 r = lit 98000 /\
   replacedProduction r = lit 58800 /\
   demoBudgetYear2 r = lit 39200 /\
   annualSavings r = lit 58800 /\
   reductionPct r = lit 0.60 /\
   roi2yBase r = lit 0.176 /\
   option_map (fun a => (sr_name a, incrementalSales a, incrementalProfit a, roi2yTotal a))
              (nth_error (scenarioResults r) 0)
   = Some (A, lit 35000, lit 14000, lit 0.456))
  /\
  (let r := En.calc (num := binary64) default_inputs in
   marketingBudget r = lit 980000.0000000001 /\
   contentBudget r = lit 196000.00000000003 /\
   demoBudgetYear1 r = lit 98000.00000000001 /\
   replacedProduction r = lit 58800.00000000001 /\
   demoBudgetYear2 r = lit 39200.00000000001 /\
   annualSavings r = lit 58800.00000000001 /\
   reductionPct r = lit 0.60 /\
   roi2yBase r = lit 0.17600000000000016 /\
   option_map (fun a => (sr_name a, incrementalSales a, incrementalProfit a, roi2yTotal a))
              (nth_error (scenarioResults r) 0)
   = Some (A, lit 35000, lit 14000, lit 0.456)).
Proof.
  split; [| split].
  - intros num N st r. subst r. repeat split.
  - cbv zeta.
    repeat match goal with
           | |- _ /\ _ => split
           | |- _ = lit _ => apply XFin_eq; vm_compute; reflexivity
           end.
    cbn [nth_error option_map En.calc scenarioResults default_inputs default_scenarios
         scenarios map sr_name].
    repeat f_equal; apply XFin_eq; vm_compute; reflexivity.
  - cbv zeta. repeat split; vm_compute; reflexivity.
Qed.

(** ** Exact arithmetic on finite inputs *)

Lemma x_isFinite_XFin (x : xrat) : x_isFinite x = true -> exists q, x = XFin q.
Proof. destruct x; cbn; try discriminate. intros _. eauto. Qed.

Lemma Qc_eqb_true (p q : Qc) : Qc_eqb p q = true <-> p = q.
Proof.
  unfold Qc_eqb. rewrite Qeq_bool_iff. split.
  - apply Qc_is_canon.
  - intros ->. reflexivity.
Qed.

Lemma Qc_eqb_false (p q : Qc) : Qc_eqb p q = false <-> p <> q.
Proof.
  rewrite <- Qc_eqb_true. destruct (Qc_eqb p q); split; congruence.
Qed.

(** The scalar fields of a finite exact input are rationals. *)
Lemma finite_inputs_scalars (st : Inputs xrat) :
  finite_inputs st = true ->
  exists rev m c d rep inv g : Qc,
    revenue st = XFin rev /\ marketingPct st = XFin m /\ contentPct st = XFin c /\
    demoAllocPct st = XFin d /\ replacementPct st = XFin rep /\
    investmentYear1 st = XFin inv /\ grossMargin st = XFin g.
Proof.
  unfold finite_inputs. cbn [isFinite xrat_number].
  rewrite !andb_true_iff. intros [[[[[[[H1 H2] H3] H4] H5] H6] H7] _].
  apply x_isFinite_XFin in H1, H2, H3, H4, H5, H6, H7.
  destruct H1 as [rev ->], H2 as [m ->], H3 as [c ->], H4 as [d ->],
           H5 as [rep ->], H6 as [inv ->], H7 as [g ->].
  exists rev, m, c, d, rep, inv, g. repeat split.
Qed.

(** The base chain of a finite exact input, in closed form. *)
Lemma calc_exact_chain (st : Inputs xrat) (rev m c d rep inv g : Qc) :
  revenue st = XFin rev -> marketingPct st = XFin m -> contentPct st = XFin c ->
  demoAllocPct st = XFin d -> replacementPct st = XFin rep ->
  investmentYear1 st = XFin inv -> grossMargin st = XFin g ->
  let d1 := (rev * m * c * d)%Qc in
  let r := En.calc st in
  demoBudgetYear1 r = XFin d1 /\
  replacedProduction r = XFin (d1 * rep)%Qc /\
  demoBudgetYear2 r = XFin (d1 - d1 * rep)%Qc /\
  annualSavings r = XFin (d1 - (d1 - d1 * rep))%Qc.
Proof.
  intros Hrev Hm Hc Hd Hrep Hinv Hg d1 r. subst d1 r.
  unfold En.calc.
  cbn [demoBudgetYear1 replacedProduction demoBudgetYear2 annualSavings].
  rewrite Hrev, Hm, Hc, Hd, Hrep. repeat split.
Qed.

Lemma xdiv_XFin (p q : Qc) :
  Qc_eqb q (Q2Qc 0) = false -> xdiv (XFin p) (XFin q) = XFin (p / q)%Qc.
Proof. intros Hq. cbn [xdiv]. rewrite Hq. reflexivity. Qed.

(** Names the rationals behind a finite exact input and the closed form of
    its base chain. *)
Ltac exact_chain st Hfin :=
  let rev := fresh "rev" in let m := fresh "m" in let c := fresh "c" in
  let d := fresh "d" in let rep := fresh "rep" in let inv := fresh "inv" in
  let g := fresh "g" in
  destruct (finite_inputs_scalars st Hfin)
    as (rev & m & c & d & rep & inv & g & Hrev & Hm & Hc & Hd & Hrep & Hinv & Hg);
  destruct (calc_exact_chain st rev m c d rep inv g Hrev Hm Hc Hd Hrep Hinv Hg)
    as (Hd1 & Hrp & Hd2 & Has).

(** ** annualSavings and replacedProduction *)

(** C3, as stated, fails on the code: on the default inputs with the
    replacement share set to 25 percent, all inputs finite, the binary64
    block returns replacedProduction = 24500.000000000004 and
    annualSavings = 98000.00000000001 - 73500.00000000001 = 24500. *)
Lemma annualSavings_differs_in_binary64 :
  let st : Inputs binary64 := quarter_replacement_inputs in
  finite_inputs st = true /\ b64_valid_inputs st = true /\
  replacedProduction (En.calc st) = lit 24500.000000000004 /\
  annualSavings (En.calc st) = lit 24500 /\
  annualSavings (En.calc st) <> replacedProduction (En.calc st) /\
  (annualSavings (En.calc st) === replacedProduction (En.calc st)) = false.
Proof.
  cbv zeta. repeat split; try (vm_compute; reflexivity).
  vm_compute. discriminate.
Qed.

(** C3 (amended): in exact arithmetic, for every finite input,
    annualSavings, computed as demoBudgetYear1 - demoBudgetYear2, is equal
    to replacedProduction. *)
Theorem annualSavings_eq_replacedProduction_exact :
  forall st : Inputs xrat,
    finite_inputs st = true ->
    annualSavings (En.calc st) = replacedProduction (En.calc st) /\
    (annualSavings (En.calc st) === replacedProduction (En.calc st)) = true.
Proof.
  intros st Hfin. exact_chain st Hfin.
  rewrite Has, Hrp.
  assert (Heq : forall x y : Qc, (x - (x - x * y) = x * y)%Qc) by (intros; ring).
  rewrite Heq. split; [reflexivity |].
  cbn [strict_eq xrat_number xeqb]. apply Qc_eqb_true. reflexivity.
Qed.

Lemma annualSavings_eq_replacedProduction_exact_witness :
  annualSavings (En.calc (num := xrat) default_inputs)
  = replacedProduction (En.calc (num := xrat) default_inputs).
Proof.
  apply (annualSavings_eq_replacedProduction_exact default_inputs).
  vm_compute. reflexivity.
Defined.

(** ** reductionPct echoes replacementPct *)

(** C10: in exact arithmetic, for every finite input whose demoBudgetYear1
    is not zero, reductionPct is equal to the input replacementPct. *)
Theorem reductionPct_eq_replacementPct_exact :
  forall st : Inputs xrat,
    finite_inputs st = true ->
    (demoBudgetYear1 (En.calc st) === lit 0) = false ->
    reductionPct (En.calc st) = replacementPct st.
Proof.
  intros st Hfin Hnz. exact_chain st Hfin.
  assert (Hred : reductionPct (En.calc st) =
                 (if demoBudgetYear1 (En.calc st) === lit 0 then lit 0
                  else (demoBudgetYear1 (En.calc st) - demoBudgetYear2 (En.calc st))
                       / demoBudgetYear1 (En.calc st))) by reflexivity.
  rewrite Hred, Hnz. rewrite Hd1 in Hnz. rewrite Hd1, Hd2, Hrep.
  cbn [strict_eq lit xrat_number xeqb] in Hnz.
  cbn [sub div xrat_number xsub]. rewrite xdiv_XFin by exact Hnz.
  f_equal. apply Qc_eqb_false in Hnz.
  field. repeat split; intros E; apply Hnz; rewrite E; ring.
Qed.

Lemma reductionPct_eq_replacementPct_exact_witness :
  reductionPct (En.calc (num := xrat) default_inputs) = lit 0.6.
Proof.
  apply (reductionPct_eq_replacementPct_exact default_inputs);
    vm_compute; reflexivity.
Defined.

(** The same equation does not survive rounding: in binary64, on the
    default inputs with the replacement share set to 25 percent,
    reductionPct is 0.24999999999999997. *)
Example reductionPct_rounded_in_binary64 :
  replacementPct (quarter_replacement_inputs (num := binary64)) = lit 0.25 /\
  reductionPct (En.calc (num := binary64) quarter_replacement_inputs)
  = lit 0.24999999999999997.
Proof. split; vm_compute; reflexivity. Qed.

(** ** Guards and sentinels *)

(** C4: the block is total and no quotient in it has a zero divisor: run
    with a division that fails on a zero divisor, it still returns, and
    returns the result of the block.  Each guard resolves to its sentinel:
    reductionPct is the number 0 (not NaN) when demoBudgetYear1 is zero;
    paybackMonthsBase, roi2yBase, each roi2yTotal and each
    paybackMonthsUpside are positive infinity when replacedProduction,
    investmentYear1, investmentYear1 and annualSavings + incrementalProfit
    are zero.  This holds in binary64 on every input, finite or not. *)
Theorem calc_total_and_guarded :
  forall st : Inputs binary64,
    let r := En.calc st in
    En.calc_checked st = Value r /\
    ((demoBudgetYear1 r === lit 0) = true -> reductionPct r = S754_zero false) /\
    ((replacedProduction r === lit 0) = true ->
     paybackMonthsBase r = S754_infinity false) /\
    ((investmentYear1 st === lit 0) = true ->
     roi2yBase r = S754_infinity false /\
     Forall (fun x => roi2yTotal x = S754_infinity false) (scenarioResults r)) /\
    Forall (fun x =>
              (annualSavings r + incrementalProfit x === lit 0) = true ->
              paybackMonthsUpside x = S754_infinity false)
           (scenarioResults r).
Proof.
  intros st r. subst r. split; [apply calc_checked_Value |].
  split; [| split; [| split]].
  - intros Hz. unfold En.calc in *. cbn [reductionPct demoBudgetYear1] in *.
    rewrite Hz. reflexivity.
  - intros Hz. unfold En.calc in *. cbn [paybackMonthsBase replacedProduction] in *.
    rewrite Hz. reflexivity.
  - intros Hz. split.
    + unfold En.calc. cbn [roi2yBase]. rewrite Hz. reflexivity.
    + apply (calc_roi2yTotal_sentinel st Hz).
  - exact (calc_paybackMonthsUpside_sentinel st).
Qed.

Lemma calc_total_and_guarded_witness :
  let r := En.calc (num := binary64) zero_inputs in
  reductionPct r = S754_zero false /\
  paybackMonthsBase r = S754_infinity false /\
  roi2yBase r = S754_infinity false /\
  Forall (fun x => roi2yTotal x = S754_infinity false) (scenarioResults r).
Proof.
  destruct (calc_total_and_guarded zero_inputs) as (_ & Hred & Hpay & Hroi & _).
  cbv zeta. split; [apply Hred; reflexivity |].
  split; [apply Hpay; reflexivity |].
  apply Hroi. reflexivity.
Defined.

(** C5, as stated, fails on the code: with revenue 1, every share at 100
    percent and an investment of 1e308, all inputs finite,
    replacedProduction is 1 and paybackMonthsBase = (1e308 / 1) * 12
    overflows to positive infinity. *)
Lemma paybackMonthsBase_overflows_in_binary64 :
  let st : Inputs binary64 := huge_investment_inputs in
  finite_inputs st = true /\ b64_valid_inputs st = true /\
  replacedProduction (En.calc st) = lit 1 /\
  (replacedProduction (En.calc st) === lit 0) = false /\
  paybackMonthsBase (En.calc st) = Infinity.
Proof. cbv zeta. repeat split; vm_compute; reflexivity. Qed.

(** C5 (amended): in every arithmetic, paybackMonthsBase is the
    positive-infinity sentinel when replacedProduction is zero and is
    (investmentYear1 / replacedProduction) * 12 otherwise; in exact
    arithmetic on finite inputs that product is finite, so the sentinel
    appears if and only if replacedProduction is zero. *)
Theorem paybackMonthsBase_sentinel :
  (forall (num : Type) (N : JsNumber num) (st : Inputs num),
      let r := En.calc st in
      ((replacedProduction r === lit 0) = true -> paybackMonthsBase r = Infinity) /\
      ((replacedProduction r === lit 0) = false ->
       paybackMonthsBase r = (investmentYear1 st / replacedProduction r) * lit 12))
  /\
  (forall st : Inputs xrat,
      finite_inputs st = true ->
      let r := En.calc st in
      (paybackMonthsBase r = Infinity <-> (replacedProduction r === lit 0) = true) /\
      ((replacedProduction r === lit 0) = false ->
       isFinite (paybackMonthsBase r) = true)).
Proof.
  assert (Hgen : forall (num : Type) (N : JsNumber num) (st : Inputs num),
             paybackMonthsBase (En.calc st) =
             (if replacedProduction (En.calc st) === lit 0 then Infinity
              else (investmentYear1 st / replacedProduction (En.calc st)) * lit 12))
    by reflexivity.
  split.
  - intros num N st r. subst r. rewrite Hgen.
    split; intros ->; reflexivity.
  - intros st Hfin r. subst r. exact_chain st Hfin.
    rewrite Hgen, Hrp, Hinv.
    cbn [strict_eq lit Infinity mul div isFinite xrat_number xeqb].
    destruct (Qc_eqb (rev * m * c * d * rep) (Q2Qc 0)) eqn:Hz.
    + split; [split; reflexivity | discriminate].
    + rewrite xdiv_XFin by exact Hz. cbn [xmul x_isFinite].
      split; [split; discriminate | reflexivity].
Qed.

Lemma paybackMonthsBase_sentinel_witness :
  paybackMonthsBase (En.calc (num := binary64) zero_inputs) = Infinity /\
  paybackMonthsBase (En.calc (num := binary64) default_inputs)
  = (investmentYear1 default_inputs
     / replacedProduction (En.calc (num := binary64) default_inputs)) * lit 12 /\
  isFinite (paybackMonthsBase (En.calc (num := xrat) default_inputs)) = true.
Proof.
  destruct paybackMonthsBase_sentinel as [Hgen Hexact].
  split; [| split].
  - apply (proj1 (Hgen binary64 binary64_number zero_inputs)). reflexivity.
  - apply (proj2 (Hgen binary64 binary64_number default_inputs)).
    vm_compute. reflexivity.
  - destruct (Hexact default_inputs) as [_ Hfinite]; [vm_compute; reflexivity |].
    apply Hfinite. vm_compute. reflexivity.
Defined.

(** C6, as stated, fails on the code: with revenue 1e308, every share at
    100 percent except a replacement share of 1000 percent, and the
    default investment of 50000, all inputs finite, replacedProduction
    overflows, annualSavings is positive infinity, and so is roi2yBase
    although investmentYear1 is not zero. *)
Lemma roi2yBase_overflows_in_binary64 :
  let st : Inputs binary64 := huge_revenue_inputs in
  finite_inputs st = true /\ b64_valid_inputs st = true /\
  (investmentYear1 st === lit 0) = false /\
  roi2yBase (En.calc st) = Infinity.
Proof. cbv zeta. repeat split; vm_compute; reflexivity. Qed.

(** C6 (amended): in every arithmetic, when investmentYear1 is zero,
    roi2yBase and every scenario's roi2yTotal are the positive-infinity
    sentinel; in exact arithmetic on finite inputs, roi2yBase is the
    sentinel if and only if investmentYear1 is zero. *)
Theorem roi2y_sentinel :
  (forall (num : Type) (N : JsNumber num) (st : Inputs num),
      (investmentYear1 st === lit 0) = true ->
      roi2yBase (En.calc st) = Infinity /\
      Forall (fun x => roi2yTotal x = Infinity) (scenarioResults (En.calc st)))
  /\
  (forall st : Inputs xrat,
      finite_inputs st = true ->
      (roi2yBase (En.calc st) = Infinity <-> (investmentYear1 st === lit 0) = true)).
Proof.
  assert (Hgen : forall (num : Type) (N : JsNumber num) (st : Inputs num),
             roi2yBase (En.calc st) =
             (if investmentYear1 st === lit 0 then Infinity
              else (annualSavings (En.calc st) - investmentYear1 st)
                   / investmentYear1 st))
    by reflexivity.
  split.
  - intros num N st Hz. split.
    + rewrite Hgen, Hz. reflexivity.
    + apply (calc_roi2yTotal_sentinel st Hz).
  - intros st Hfin. exact_chain st Hfin.
    rewrite Hgen, Has, Hinv.
    cbn [strict_eq lit Infinity sub div xrat_number xeqb xsub].
    destruct (Qc_eqb inv (Q2Qc 0)) eqn:Hz.
    + split; reflexivity.
    + rewrite xdiv_XFin by exact Hz. split; discriminate.
Qed.

Lemma roi2y_sentinel_witness :
  (roi2yBase (En.calc (num := binary64) zero_inputs) = Infinity /\
   Forall (fun x => roi2yTotal x = Infinity)
          (scenarioResults (En.calc (num := binary64) zero_inputs))) /\
  (roi2yBase (En.calc (num := xrat) default_inputs) = Infinity <->
   (investmentYear1 (default_inputs (num := xrat)) === lit 0) = true).
Proof.
  destruct roi2y_sentinel as [Hgen Hexact].
  split.
  - apply (Hgen binary64 binary64_number zero_inputs). reflexivity.
  - apply (Hexact default_inputs). vm_compute. reflexivity.
Defined.

(** ** Scenarios do not interact *)

Section Scenarios.
Context {num : Type} `{JsNumber num}.

Lemma map_index_length {X Y : Type} (f : X -> nat -> Y) (i : nat) (l : list X) :
  length (map_index f i l) = length l.
Proof.
  revert i. induction l as [| x l IH]; intros i; cbn [map_index length];
    [reflexivity | rewrite IH; reflexivity].
Qed.

Lemma map_index_nth_error {X Y : Type} (f : X -> nat -> Y) (l : list X) :
  forall i j,
    nth_error (map_index f i l) j
    = option_map (fun x => f x (i + j)%nat) (nth_error l j).
Proof.
  induction l as [| x l IH]; intros i j.
  - destruct j; reflexivity.
  - destruct j as [| j]; cbn [map_index nth_error option_map].
    + rewrite Nat.add_0_r. reflexivity.
    + rewrite IH. rewrite Nat.add_succ_r. reflexivity.
Qed.

(** [setScenario idx patch] leaves every scenario but the one at [idx]
    as it was, and the seven scalar inputs are other pieces of state. *)
Lemma setScenario_differ_at_scenario_only
      (idx : nat) (patch : ScenarioPatch num) (st : Inputs num) :
  differ_at_scenario_only idx st
    (with_scenarios st (setScenario idx patch (scenarios st))).
Proof.
  unfold differ_at_scenario_only, same_scalars, with_scenarios, setScenario.
  cbn [revenue marketingPct contentPct demoAllocPct replacementPct
       investmentYear1 grossMargin scenarios].
  split; [repeat split |]. split.
  - symmetry. apply map_index_length.
  - intros j Hj. rewrite map_index_nth_error. cbn [Nat.add].
    apply Nat.eqb_neq in Hj. rewrite Hj.
    destruct (nth_error (scenarios st) j); reflexivity.
Qed.

(** A patch that carries only [perfUplift] changes nothing else. *)
Lemma setScenario_differ_in_perfUplift_only
      (idx : nat) (x : num) (st : Inputs num) :
  differ_in_perfUplift_only st
    (with_scenarios st
       (setScenario idx
          {| patch_name := None; patch_perfUplift := Some x;
             patch_salesUplift := None |}
          (scenarios st))).
Proof.
  unfold differ_in_perfUplift_only, same_scalars, with_scenarios, setScenario.
  cbn [revenue marketingPct contentPct demoAllocPct replacementPct
       investmentYear1 grossMargin scenarios].
  split; [repeat split |].
  generalize 0%nat. induction (scenarios st) as [| s l IH]; intros i;
    cbn [map_index]; constructor.
  - destruct (Nat.eqb i idx); split; reflexivity.
  - apply IH.
Qed.

(** The scenario results depend on the scalar inputs and, entry by
    entry, on the scenario at the same index. *)
Lemma calc_same_scalars (st1 st2 : Inputs num) :
  same_scalars st1 st2 ->
  base_metrics (En.calc st1) = base_metrics (En.calc st2) /\
  exists f : Scenario num -> ScenarioResult num,
    scenarioResults (En.calc st1) = map f (scenarios st1) /\
    scenarioResults (En.calc st2) = map f (scenarios st2) /\
    forall s, sr_name (f s) = name s /\ sr_perfUplift (f s) = perfUplift s /\
              sr_salesUplift (f s) = salesUplift s /\
              forall s', salesUplift s = salesUplift s' ->
                         derived_values (f s) = derived_values (f s').
Proof.
  destruct st1 as [rev1 m1 c1 d1 rep1 inv1 g1 l1],
           st2 as [rev2 m2 c2 d2 rep2 inv2 g2 l2].
  unfold same_scalars.
  cbn [revenue marketingPct contentPct demoAllocPct replacementPct
       investmentYear1 grossMargin].
  intros (-> & -> & -> & -> & -> & -> & ->).
  split; [reflexivity |].
  unfold En.calc.
  cbn [scenarioResults revenue marketingPct contentPct demoAllocPct
       replacementPct investmentYear1 grossMargin scenarios].
  eexists. split; [reflexivity |]. split; [reflexivity |].
  intros s. cbn [sr_name sr_perfUplift sr_salesUplift].
  repeat split. intros s' Hs. unfold derived_values.
  cbn [incrementalSales incrementalProfit roi2yTotal paybackMonthsUpside].
  rewrite Hs. reflexivity.
Qed.
End Scenarios.

(** C7: two inputs that are identical except in the perfUplift of their
    scenarios give the same nine base metrics and, scenario by scenario,
    the same incrementalSales, incrementalProfit, roi2yTotal and
    paybackMonthsUpside; and the perfUplift of each scenario result is the
    perfUplift of the scenario it was computed from. *)
Theorem perfUplift_has_no_effect :
  forall (num : Type) (N : JsNumber num) (st1 st2 : Inputs num),
    differ_in_perfUplift_only st1 st2 ->
    base_metrics (En.calc st1) = base_metrics (En.calc st2) /\
    Forall2 (fun r1 r2 => derived_values r1 = derived_values r2)
            (scenarioResults (En.calc st1)) (scenarioResults (En.calc st2)) /\
    Forall2 (fun s r => sr_perfUplift r = perfUplift s)
            (scenarios st1) (scenarioResults (En.calc st1)).
Proof.
  intros num N st1 st2 [Hsc Hl].
  destruct (calc_same_scalars st1 st2 Hsc) as (Hbase & f & -> & -> & Hf).
  split; [exact Hbase |]. split.
  - induction Hl as [| s1 s2 l1 l2 [_ Hs] _ IH]; cbn [map]; constructor.
    + apply (Hf s1), Hs.
    + exact IH.
  - clear Hl. induction (scenarios st1) as [| s l IH]; cbn [map]; constructor.
    + apply (Hf s).
    + exact IH.
Qed.

Lemma perfUplift_has_no_effect_witness :
  let st1 : Inputs binary64 := default_inputs in
  let st2 : Inputs binary64 :=
    with_scenarios st1
      (setScenario 1 {| patch_name := None; patch_perfUplift := Some (lit 0.5);
                        patch_salesUplift := None |} (scenarios st1)) in
  nth_error (scenarios st1) 1 <> nth_error (scenarios st2) 1 /\
  base_metrics (En.calc st1) = base_metrics (En.calc st2) /\
  Forall2 (fun r1 r2 => derived_values r1 = derived_values r2)
          (scenarioResults (En.calc st1)) (scenarioResults (En.calc st2)) /\
  Forall2 (fun s r => sr_perfUplift r = perfUplift s)
          (scenarios st1) (scenarioResults (En.calc st1)).
Proof.
  cbv zeta. split.
  - vm_compute. discriminate.
  - apply (perfUplift_has_no_effect binary64 binary64_number default_inputs).
    unfold differ_in_perfUplift_only, same_scalars.
    split; [repeat split |].
    repeat constructor.
Defined.

(** C8: two inputs that differ only in the fields of the scenario at one
    index give the same nine base metrics and the same result, field for
    field, for the scenario at every other index. *)
Theorem scenario_independence :
  forall (num : Type) (N : JsNumber num) (k : nat) (st1 st2 : Inputs num),
    differ_at_scenario_only k st1 st2 ->
    base_metrics (En.calc st1) = base_metrics (En.calc st2) /\
    length (scenarioResults (En.calc st1)) = length (scenarioResults (En.calc st2)) /\
    forall j, j <> k ->
              nth_error (scenarioResults (En.calc st1)) j
              = nth_error (scenarioResults (En.calc st2)) j.
Proof.
  intros num N k st1 st2 (Hsc & Hlen & Hnth).
  destruct (calc_same_scalars st1 st2 Hsc) as (Hbase & f & -> & -> & _).
  split; [exact Hbase |]. split.
  - rewrite !length_map. exact Hlen.
  - intros j Hj. rewrite !nth_error_map, (Hnth j Hj). reflexivity.
Qed.

Lemma scenario_independence_witness :
  let st1 : Inputs binary64 := default_inputs in
  let st2 : Inputs binary64 :=
    with_scenarios st1
      (setScenario 1 {| patch_name := Some C; patch_perfUplift := Some (lit 0.5);
                        patch_salesUplift := Some (lit 0.02) |} (scenarios st1)) in
  nth_error (scenarioResults (En.calc st1)) 1
  <> nth_error (scenarioResults (En.calc st2)) 1 /\
  base_metrics (En.calc st1) = base_metrics (En.calc st2) /\
  nth_error (scenarioResults (En.calc st1)) 0
  = nth_error (scenarioResults (En.calc st2)) 0 /\
  nth_error (scenarioResults (En.calc st1)) 2
  = nth_error (scenarioResults (En.calc st2)) 2.
Proof.
  cbv zeta. split.
  - vm_compute. discriminate.
  - destruct (scenario_independence binary64 binary64_number 1 default_inputs
                (with_scenarios default_inputs
                   (setScenario 1 {| patch_name := Some C;
                                     patch_perfUplift := Some (lit 0.5);
                                     patch_salesUplift := Some (lit 0.02) |}
                      (scenarios default_inputs))))
      as (Hbase & _ & Hnth).
    + unfold differ_at_scenario_only, same_scalars.
      split; [repeat split |]. split; [reflexivity |].
      intros [| [| j]] Hj; [reflexivity | contradiction | reflexivity].
    + split; [exact Hbase |]. split; apply Hnth; discriminate.
Defined.

(** * Further properties of the pages *)

(** ** setScenario *)

Section SetScenario.
Context {num : Type}.

Lemma map_index_ext {X Y : Type} (f g : X -> nat -> Y) (l : list X) :
  forall i, (forall x j, (i <= j)%nat -> f x j = g x j) ->
            map_index f i l = map_index g i l.
Proof.
  induction l as [| x l IH]; intros i Hfg; cbn [map_index]; [reflexivity |].
  rewrite (Hfg x i (Nat.le_refl i)). f_equal.
  apply IH. intros y j Hj. apply Hfg. lia.
Qed.

Lemma map_index_id {X : Type} (f : X -> nat -> X) (l : list X) :
  forall i, (forall x j, (i <= j < i + length l)%nat -> f x j = x) ->
            map_index f i l = l.
Proof.
  induction l as [| x l IH]; intros i Hf; cbn [map_index]; [reflexivity |].
  cbn [length] in Hf. rewrite (Hf x i) by lia. f_equal.
  apply IH. intros y j Hj. apply Hf. lia.
Qed.

Lemma map_index_map_index {X : Type} (f g : X -> nat -> X) (l : list X) :
  forall i, map_index g i (map_index f i l) = map_index (fun x j => g (f x j) j) i l.
Proof.
  induction l as [| x l IH]; intros i; cbn [map_index]; [reflexivity |].
  rewrite IH. reflexivity.
Qed.

Lemma spread_patch_empty (s : Scenario num) : spread_patch s empty_patch = s.
Proof. destruct s; reflexivity. Qed.

Lemma spread_patch_spread_patches (s : Scenario num) (p1 p2 : ScenarioPatch num) :
  spread_patch (spread_patch s p1) p2 = spread_patch s (spread_patches p1 p2).
Proof.
  destruct s as [n u v], p1 as [n1 u1 v1], p2 as [[n2 |] [u2 |] [v2 |]];
    reflexivity.
Qed.

Lemma setScenario_lookup (idx : nat) (patch : ScenarioPatch num)
      (prev : list (Scenario num)) (j : nat) :
  nth_error (setScenario idx patch prev) j =
  if Nat.eqb j idx
  then option_map (fun s => spread_patch s patch) (nth_error prev j)
  else nth_error prev j.
Proof.
  unfold setScenario. rewrite map_index_nth_error. cbn [Nat.add].
  destruct (Nat.eqb j idx), (nth_error prev j); reflexivity.
Qed.

(** X1: [setScenario idx patch] keeps the number of scenarios; the scenario
    at [idx] becomes [{ ...s, ...patch }] and every other one is kept. *)
Theorem setScenario_nth_error :
  forall (idx : nat) (patch : ScenarioPatch num) (prev : list (Scenario num)),
    length (setScenario idx patch prev) = length prev /\
    forall j,
      nth_error (setScenario idx patch prev) j =
      if Nat.eqb j idx
      then option_map (fun s => spread_patch s patch) (nth_error prev j)
      else nth_error prev j.
Proof.
  intros idx patch prev. unfold setScenario. split.
  - apply map_index_length.
  - intros j. apply setScenario_lookup.
Qed.

(** X2: an index at or beyond the end of the list changes nothing: no
    scenario is added and none is altered. *)
Theorem setScenario_out_of_range :
  forall (idx : nat) (patch : ScenarioPatch num) (prev : list (Scenario num)),
    (length prev <= idx)%nat -> setScenario idx patch prev = prev.
Proof.
  intros idx patch prev Hle. unfold setScenario.
  apply map_index_id. intros s j Hj.
  destruct (Nat.eqb_spec j idx); [lia | reflexivity].
Qed.


(** X3: edits of two different scenarios commute. *)
Theorem setScenario_commute :
  forall (i1 i2 : nat) (p1 p2 : ScenarioPatch num) (prev : list (Scenario num)),
    i1 <> i2 ->
    setScenario i1 p1 (setScenario i2 p2 prev)
    = setScenario i2 p2 (setScenario i1 p1 prev).
Proof.
  intros i1 i2 p1 p2 prev Hne. unfold setScenario.
  rewrite !map_index_map_index. apply map_index_ext. intros s j _.
  destruct (Nat.eqb_spec j i1), (Nat.eqb_spec j i2); try reflexivity.
  congruence.
Qed.


(** X4: two edits of the same scenario are one edit with the merged
    patch, in which the later value of a property wins; in particular an
    edit repeated is the edit once, and the empty patch changes nothing. *)
Theorem setScenario_same_index :
  forall (idx : nat) (p1 p2 : ScenarioPatch num) (prev : list (Scenario num)),
    setScenario idx p2 (setScenario idx p1 prev)
    = setScenario idx (spread_patches p1 p2) prev /\
    setScenario idx p1 (setScenario idx p1 prev) = setScenario idx p1 prev /\
    setScenario idx empty_patch prev = prev.
Proof.
  intros idx p1 p2 prev. unfold setScenario. split; [| split].
  - rewrite map_index_map_index. apply map_index_ext. intros s j _.
    destruct (Nat.eqb j idx); [apply spread_patch_spread_patches | reflexivity].
  - rewrite map_index_map_index. apply map_index_ext. intros s j _.
    destruct (Nat.eqb j idx); [| reflexivity].
    rewrite spread_patch_spread_patches. f_equal.
    destruct p1 as [[n |] [u |] [v |]]; reflexivity.
  - apply map_index_id. intros s j _.
    destruct (Nat.eqb j idx); [apply spread_patch_empty | reflexivity].
Qed.
End SetScenario.

Lemma setScenario_out_of_range_witness :
  setScenario 3 {| patch_name := None; patch_perfUplift := None;
                   patch_salesUplift := Some (lit 0.02) |}
              (default_scenarios (num := binary64))
  = default_scenarios.
Proof. apply setScenario_out_of_range. cbn [default_scenarios length]. lia. Defined.

Lemma setScenario_commute_witness :
  let p1 : ScenarioPatch binary64 :=
    {| patch_name := None; patch_perfUplift := Some (lit 0.2);
       patch_salesUplift := None |} in
  let p2 : ScenarioPatch binary64 :=
    {| patch_name := None; patch_perfUplift := None;
       patch_salesUplift := Some (lit 0.02) |} in
  setScenario 0 p1 (setScenario 2 p2 default_scenarios)
  = setScenario 2 p2 (setScenario 0 p1 default_scenarios).
Proof. cbv zeta. apply setScenario_commute. discriminate. Defined.

(** X5: editing the perfUplift of a scenario through [setScenario] and
    recomputing changes no figure: the nine base metrics are the same and
    every scenario keeps its name, salesUplift and four derived values;
    only the perfUplift carried by the edited scenario's result changes. *)
Theorem edit_perfUplift_then_calc :
  forall (num : Type) (N : JsNumber num) (idx : nat) (x : num) (st : Inputs num),
    let st' :=
      with_scenarios st
        (setScenario idx {| patch_name := None; patch_perfUplift := Some x;
                            patch_salesUplift := None |} (scenarios st)) in
    base_metrics (En.calc st') = base_metrics (En.calc st) /\
    forall j,
      nth_error (scenarioResults (En.calc st')) j =
      option_map
        (fun r =>
           {| sr_name := sr_name r;
              sr_perfUplift := if Nat.eqb j idx then x else sr_perfUplift r;
              sr_salesUplift := sr_salesUplift r;
              incrementalSales := incrementalSales r;
              incrementalProfit := incrementalProfit r;
              roi2yTotal := roi2yTotal r;
              paybackMonthsUpside := paybackMonthsUpside r |})
        (nth_error (scenarioResults (En.calc st)) j).
Proof.
  intros num N idx x st st'. subst st'. split; [reflexivity |].
  intros j. unfold En.calc.
  cbn [scenarioResults with_scenarios scenarios revenue marketingPct contentPct
       demoAllocPct replacementPct investmentYear1 grossMargin].
  rewrite !nth_error_map.
  rewrite setScenario_lookup.
  destruct (Nat.eqb j idx), (nth_error (scenarios st) j) as [s |]; reflexivity.
Qed.

(** ** Reading typed numbers *)

Lemma remove_whitespace_drop_leading (s : jsstring) :
  remove_whitespace (drop_leading_whitespace s) = remove_whitespace s.
Proof.
  induction s as [| c s IH]; [reflexivity |].
  cbn [drop_leading_whitespace remove_whitespace filter].
  destruct (is_whitespace c) eqn:Hc; cbn [negb].
  - exact IH.
  - cbn [filter]. rewrite Hc. reflexivity.
Qed.

Lemma remove_whitespace_trim (s : jsstring) :
  remove_whitespace (trim s) = remove_whitespace s.
Proof.
  unfold trim.
  assert (Hrev : forall t, remove_whitespace (rev t) = rev (remove_whitespace t))
    by (intros t; apply filter_rev).
  rewrite Hrev, remove_whitespace_drop_leading, Hrev, rev_involutive.
  apply remove_whitespace_drop_leading.
Qed.

Lemma filter_filter {X : Type} (f g : X -> bool) (l : list X) :
  filter f (filter g l) = filter (fun x => g x && f x) l.
Proof.
  induction l as [| x l IH]; [reflexivity |].
  cbn [filter]. destruct (g x); cbn [filter andb]; [destruct (f x) |];
    rewrite IH; reflexivity.
Qed.

Lemma filter_ext_bool {X : Type} (f g : X -> bool) (l : list X) :
  (forall x, f x = g x) -> filter f l = filter g l.
Proof.
  intros Hfg. induction l as [| x l IH]; [reflexivity |].
  cbn [filter]. rewrite Hfg, IH. reflexivity.
Qed.

Lemma remove_all_idempotent (c : N) (s : jsstring) :
  remove_all c (remove_all c s) = remove_all c s.
Proof.
  unfold remove_all. rewrite filter_filter. apply filter_ext_bool.
  intros x. apply andb_diag.
Qed.

(** The text handed to [Number] by [parseEsNumber]. *)
Lemma parseEsNumber_text {num : Type} `{JsNumber num}
      (Number : jsstring -> num) (NaN : num) (input : jsstring) :
  EsUI.parseEsNumber Number NaN input =
  (let n := Number (replace_all comma full_stop
                      (remove_all full_stop (remove_whitespace input))) in
   if isFinite n then n else NaN).
Proof. unfold EsUI.parseEsNumber. rewrite remove_whitespace_trim. reflexivity. Qed.

(** The Spanish page reads the Spanish spelling of a text as the English
    page reads the text. *)
Lemma es_text_of_swapped (t : jsstring) :
  forallb (fun c => negb (is_whitespace c)) t = true ->
  replace_all comma full_stop
    (remove_all full_stop (remove_whitespace (swap_separators t)))
  = remove_all comma t.
Proof.
  induction t as [| c t IH]; [reflexivity |].
  cbn [forallb]. rewrite andb_true_iff. intros [Hc Ht].
  specialize (IH Ht).
  unfold replace_all, remove_all, remove_whitespace, swap_separators in *.
  cbn [map filter].
  destruct (N.eqb_spec c comma) as [-> | Hcomma].
  - cbn. exact IH.
  - destruct (N.eqb_spec c full_stop) as [-> | Hstop].
    + cbn. f_equal. exact IH.
    + rewrite Hc. cbn [filter].
      destruct (N.eqb_spec c full_stop); [contradiction |].
      cbn [negb map].
      destruct (N.eqb_spec c comma); [contradiction |].
      f_equal. exact IH.
Qed.

(** X6: thousands separators typed into the English page are ignored
    wherever they stand: [clampNumber] gives the same number for a text and
    for the text with every comma removed, and so does the revenue field. *)
Theorem en_commas_ignored :
  forall (Number : jsstring -> binary64) (v : jsstring) (old : binary64),
    EnUI.clampNumber Number v old = EnUI.clampNumber Number (remove_all comma v) old /\
    EnUI.onRevenueChange Number v old
    = EnUI.onRevenueChange Number (remove_all comma v) old.
Proof.
  intros Number v old. unfold EnUI.onRevenueChange, EnUI.clampNumber.
  rewrite !remove_all_idempotent. split; reflexivity.
Qed.

(** X7: [parseEsNumber] ignores white space and full stops (the Spanish
    thousands separator) wherever they stand, not only around the text:
    it gives the same number for an input and for the input with every
    white-space code unit and every full stop removed. *)
Theorem parseEsNumber_ignores_space_and_stops :
  forall (num : Type) (N : JsNumber num) (Number : jsstring -> num) (NaN : num)
         (input : jsstring),
    EsUI.parseEsNumber Number NaN input
    = EsUI.parseEsNumber Number NaN
        (remove_all full_stop (remove_whitespace input)).
Proof.
  intros num N Number NaN input. rewrite !parseEsNumber_text. cbv zeta.
  assert (Hsame : remove_all full_stop
                    (remove_whitespace (remove_all full_stop (remove_whitespace input)))
                  = remove_all full_stop (remove_whitespace input)).
  { unfold remove_all, remove_whitespace. rewrite !filter_filter.
    apply filter_ext_bool. intros x.
    destruct (is_whitespace x), (x =? full_stop)%N; reflexivity. }
  rewrite Hsame. reflexivity.
Qed.

(** The two examples in the comment above [parseEsNumber]: "14.000.000" is
    read as "14000000" and "10,2" as "10.2". *)
Example parseEsNumber_documented_examples :
  forall (Number : jsstring -> binary64),
    EsUI.parseEsNumber Number S754_nan [49; 52; 46; 48; 48; 48; 46; 48; 48; 48]%N
    = (let n := Number [49; 52; 48; 48; 48; 48; 48; 48]%N in
       if isFinite n then n else S754_nan) /\
    EsUI.parseEsNumber Number S754_nan [49; 48; 44; 50]%N
    = (let n := Number [49; 48; 46; 50]%N in if isFinite n then n else S754_nan).
Proof. intros Number. split; reflexivity. Qed.

(** X8: the two locales read the same numbers: a text without white space
    typed into the English page and the same text with ',' and '.'
    exchanged typed into the Spanish page give the same value (or, when
    it is not a finite number, both keep the previous value). *)
Theorem locales_read_the_same_number :
  forall (num : Type) (N : JsNumber num) (Number : jsstring -> num) (NaN : num)
         (t : jsstring) (fallback : num),
    isFinite NaN = false ->
    forallb (fun c => negb (is_whitespace c)) t = true ->
    EsUI.clampNumber Number NaN (swap_separators t) fallback
    = EnUI.clampNumber Number t fallback.
Proof.
  intros num N Number NaN t fallback HNaN Ht.
  unfold EsUI.clampNumber, EnUI.clampNumber.
  rewrite parseEsNumber_text. cbv zeta.
  rewrite (es_text_of_swapped t Ht).
  destruct (isFinite (Number (remove_all comma t))) eqn:Hfin.
  - rewrite Hfin. reflexivity.
  - rewrite HNaN. reflexivity.
Qed.

Lemma locales_read_the_same_number_witness :
  let Number : jsstring -> binary64 := fun s => lit (Z.of_nat (length s) # 2) in
  EsUI.clampNumber Number S754_nan [49; 46; 50; 48; 48; 44; 53]%N (lit 7)
  = EnUI.clampNumber Number [49; 44; 50; 48; 48; 46; 53]%N (lit 7).
Proof.
  cbv zeta.
  apply (locales_read_the_same_number binary64 binary64_number
           (fun s => lit (Z.of_nat (length s) # 2)) S754_nan
           [49; 44; 50; 48; 48; 46; 53]%N (lit 7)); reflexivity.
Defined.

(** Whatever is typed, [clampNumber] returns a finite number when the
    fallback is finite, in each of the three pages. *)
Lemma clampNumber_finite :
  forall (num : Type) (N : JsNumber num) (Number : jsstring -> num) (NaN : num)
         (v : jsstring) (fallback : num),
    isFinite fallback = true ->
    isFinite (EnUI.clampNumber Number v fallback) = true /\
    isFinite (EsUI.clampNumber Number NaN v fallback) = true /\
    isFinite (VariantUI.clampNumber Number v fallback) = true.
Proof.
  intros num N Number NaN v fallback Hfb.
  assert (Hplain : forall n : num, isFinite (if isFinite n then n else fallback) = true).
  { intros n. destruct (isFinite n) eqn:Hn; assumption. }
  repeat split; apply Hplain.
Qed.


(** ** Rounding never produces NaN *)

Lemma shr_1_nonneg (mrs : shr_record) :
  (0 <= shr_m mrs)%Z -> (0 <= shr_m (shr_1 mrs))%Z.
Proof.
  destruct mrs as [m r s]. cbn [shr_m]. intros Hm.
  destruct m as [| p | p]; [| destruct p | lia]; cbn; lia.
Qed.

Lemma iter_pos_shr_1_nonneg (p : positive) :
  forall mrs, (0 <= shr_m mrs)%Z -> (0 <= shr_m (iter_pos shr_1 p mrs))%Z.
Proof.
  induction p as [p IH | p IH |]; intros mrs Hm; cbn [iter_pos].
  - apply IH, IH, shr_1_nonneg, Hm.
  - apply IH, IH, Hm.
  - apply shr_1_nonneg, Hm.
Qed.

Lemma shr_fexp_nonneg (m e : Z) (l : location) :
  (0 <= m)%Z -> (0 <= shr_m (fst (shr_fexp prec emax m e l)))%Z.
Proof.
  intros Hm. unfold shr_fexp, shr.
  assert (H0 : (0 <= shr_m (shr_record_of_loc m l))%Z)
    by (destruct l as [| []]; exact Hm).
  destruct (fexp prec emax (Zdigits2 m + e) - e)%Z; cbn [fst]; try exact H0.
  apply iter_pos_shr_1_nonneg, H0.
Qed.

Lemma round_nearest_even_nonneg (m : Z) (l : location) :
  (0 <= m)%Z -> (0 <= round_nearest_even m l)%Z.
Proof.
  intros Hm. destruct l as [| []]; cbn [round_nearest_even]; try lia.
  destruct (Z.even m); lia.
Qed.

Lemma binary_round_aux_has_sign (s : bool) (m e : Z) (l : location) :
  (0 <= m)%Z -> has_sign s (binary_round_aux prec emax s m e l).
Proof.
  intros Hm. unfold binary_round_aux.
  pose proof (shr_fexp_nonneg m e l Hm) as H1.
  destruct (shr_fexp prec emax m e l) as [mrs1 e1]. cbn [fst] in H1.
  pose proof (shr_fexp_nonneg
                (round_nearest_even (shr_m mrs1) (loc_of_shr_record mrs1)) e1
                loc_Exact (round_nearest_even_nonneg _ _ H1)) as H2.
  destruct (shr_fexp prec emax _ e1 loc_Exact) as [mrs2 e2]. cbn [fst] in H2.
  destruct (shr_m mrs2) as [| p | p]; [left; reflexivity | | lia].
  destruct (e2 <=? emax - prec)%Z; [right; left; eauto | right; right; reflexivity].
Qed.

Lemma binary_round_has_sign (s : bool) (m : positive) (e : Z) :
  has_sign s (binary_round prec emax s m e).
Proof.
  unfold binary_round.
  destruct (shl_align m e (fexp prec emax (Z.pos (digits2_pos m) + e))) as [mz ez].
  apply binary_round_aux_has_sign. lia.
Qed.

Lemma SFmul_finite_has_sign (sx sy : bool) (mx my : positive) (ex ey : Z) :
  has_sign (xorb sx sy)
           (SFmul prec emax (S754_finite sx mx ex) (S754_finite sy my ey)).
Proof. cbn [SFmul]. apply binary_round_aux_has_sign. lia. Qed.

Lemma SFdiv_finite_has_sign (sx sy : bool) (mx my : positive) (ex ey : Z) :
  has_sign (xorb sx sy)
           (SFdiv prec emax (S754_finite sx mx ex) (S754_finite sy my ey)).
Proof.
  cbn [SFdiv]. unfold SFdiv_core_binary.
  set (s := (ex - ey -
             Z.min (fexp prec emax (Zdigits2 (Z.pos mx) + ex - (Zdigits2 (Z.pos my) + ey)))
                   (ex - ey))%Z).
  set (m' := match s with
             | Z.pos _ => Z.shiftl (Z.pos mx) s
             | 0%Z => Z.pos mx
             | Z.neg _ => 0%Z
             end).
  assert (Hm' : (0 <= m')%Z).
  { subst m'. destruct s; try lia. apply Z.shiftl_nonneg. lia. }
  pose proof (Z.div_pos m' (Z.pos my) Hm' ltac:(lia)) as Hq.
  unfold Z.div in Hq.
  destruct (Z.div_eucl m' (Z.pos my)) as [q r]. cbn [fst] in Hq.
  apply binary_round_aux_has_sign, Hq.
Qed.

Lemma has_sign_not_nan (s : bool) (x : binary64) : has_sign s x -> not_nan x.
Proof. intros [-> | [(m & e & ->) | ->]]; discriminate. Qed.

Lemma has_sign_false_nonneg (x : binary64) : has_sign false x -> b64_nonneg x = true.
Proof. intros [-> | [(m & e & ->) | ->]]; reflexivity. Qed.

(** Multiplying or dividing by a finite non-zero constant keeps NaN out. *)
Lemma SFmul_finite_not_nan (x : binary64) (s : bool) (m : positive) (e : Z) :
  not_nan x -> not_nan (SFmul prec emax x (S754_finite s m e)).
Proof.
  intros Hx. destruct x as [sx | sx | | sx mx ex]; try discriminate.
  - contradiction.
  - apply (has_sign_not_nan _ _ (SFmul_finite_has_sign sx s mx m ex e)).
Qed.

Lemma SFdiv_finite_not_nan (x : binary64) (s : bool) (m : positive) (e : Z) :
  not_nan x -> not_nan (SFdiv prec emax x (S754_finite s m e)).
Proof.
  intros Hx. destruct x as [sx | sx | | sx mx ex]; try discriminate.
  - contradiction.
  - apply (has_sign_not_nan _ _ (SFdiv_finite_has_sign sx s mx m ex e)).
Qed.

Lemma SFdiv_nonneg_by_positive (x : binary64) (m : positive) (e : Z) :
  b64_nonneg x = true ->
  b64_nonneg (SFdiv prec emax x (S754_finite false m e)) = true.
Proof.
  intros Hx. destruct x as [[] | [] | | [] mx ex]; try discriminate; try reflexivity.
  apply has_sign_false_nonneg, (SFdiv_finite_has_sign false false).
Qed.

Lemma b64_round_not_nan (x : binary64) : not_nan x -> not_nan (b64_round x).
Proof.
  intros Hx. destruct x as [sx | sx | | sx mx ex]; try exact Hx.
  cbn [b64_round]. destruct (0 <=? ex)%Z; [discriminate |].
  cbv zeta.
  destruct (if sx then _ else _) as [| p | p]; try discriminate.
  apply (has_sign_not_nan _ _ (binary_round_has_sign sx p 0)).
Qed.

Lemma b64_max_zero_nonneg (n : binary64) :
  not_nan n -> b64_nonneg (b64_max (S754_zero false) n) = true.
Proof.
  intros Hn. destruct n as [[] | [] | | [] m e]; try reflexivity.
  contradiction.
Qed.

Lemma lit_0_eq : @lit binary64 _ 0 = S754_zero false.
Proof. reflexivity. Qed.

Lemma lit_100_eq : @lit binary64 _ 100 = S754_finite false 7036874417766400 (-46).
Proof. vm_compute. reflexivity. Qed.

Lemma lit_10000_eq : @lit binary64 _ 10000 = S754_finite false 5497558138880000 (-39).
Proof. vm_compute. reflexivity. Qed.

(** ** What the input handlers store *)

Lemma isFinite_not_nan (x : binary64) : isFinite x = true -> not_nan x.
Proof. destruct x; cbn; intros H; try discriminate H; discriminate. Qed.

Lemma b64_nonneg_not_nan (x : binary64) : b64_nonneg x = true -> not_nan x.
Proof. destruct x; cbn; intros H; try discriminate H; discriminate. Qed.

Lemma percentShown_not_nan (value : binary64) :
  not_nan value -> not_nan (b64_round (value * lit 10000) / lit 100).
Proof.
  intros Hv. rewrite lit_100_eq, lit_10000_eq. cbn [mul div binary64_number].
  apply SFdiv_finite_not_nan, b64_round_not_nan, SFmul_finite_not_nan, Hv.
Qed.

Lemma store_percent_nonneg (n : binary64) :
  not_nan n -> b64_nonneg (b64_max (lit 0) n / lit 100) = true.
Proof.
  intros Hn. rewrite lit_100_eq, lit_0_eq. cbn [div binary64_number].
  apply SFdiv_nonneg_by_positive, b64_max_zero_nonneg, Hn.
Qed.

(** X9: a stored percentage never becomes negative or NaN: whatever text
    is typed, and whatever [Number] makes of it, the fraction stored by
    the percent field of each of the three pages is zero or positive,
    provided the fraction stored before was not NaN. *)
Theorem percent_field_stores_nonneg :
  forall (Number : jsstring -> binary64) (text : jsstring) (value : binary64),
    not_nan value ->
    b64_nonneg (EnUI.onPercentChange Number text value) = true /\
    b64_nonneg (EsUI.onPercentBlur Number text value) = true /\
    b64_nonneg (VariantUI.onPercentBlur Number text value) = true.
Proof.
  intros Number text value Hv.
  pose proof (percentShown_not_nan value Hv) as Hshown.
  split; [| split].
  - unfold EnUI.onPercentChange, EnUI.clampNumber, EnUI.percentShown. cbv zeta.
    apply store_percent_nonneg.
    destruct (isFinite (Number _)) eqn:Hn; [apply isFinite_not_nan, Hn | exact Hshown].
  - unfold EsUI.onPercentBlur, EsUI.onBlur. cbv zeta.
    apply store_percent_nonneg.
    destruct (isFinite (EsUI.parseEsNumber _ _ _)) eqn:Hn; [| exact Hshown].
    apply b64_nonneg_not_nan. rewrite lit_0_eq.
    apply b64_max_zero_nonneg, isFinite_not_nan, Hn.
  - unfold VariantUI.onPercentBlur, VariantUI.onBlur. cbv zeta.
    apply store_percent_nonneg.
    destruct (isFinite (Number _)) eqn:Hn; [| exact Hshown].
    apply b64_nonneg_not_nan. rewrite lit_0_eq.
    apply b64_max_zero_nonneg, isFinite_not_nan, Hn.
Qed.

Lemma percent_field_stores_nonneg_witness :
  let Number : jsstring -> binary64 := fun _ => lit (-12.5) in
  let text : jsstring := [45; 49; 50; 46; 53]%N in
  not_nan (@lit binary64 _ 0.07) /\
  (b64_nonneg (EnUI.onPercentChange Number text (lit 0.07)) = true /\
   b64_nonneg (EsUI.onPercentBlur Number text (lit 0.07)) = true /\
   b64_nonneg (VariantUI.onPercentBlur Number text (lit 0.07)) = true).
Proof.
  cbv zeta.
  assert (Hvalue : not_nan (@lit binary64 _ 0.07)) by (vm_compute; discriminate).
  split; [exact Hvalue |].
  exact (percent_field_stores_nonneg (fun _ => lit (-12.5)) [45; 49; 50; 46; 53]%N
           (lit 0.07) Hvalue).
Defined.

(** X10: the revenue field never stores a negative number or NaN: in each
    of the three pages the next revenue is zero or positive, whatever is
    typed, provided the revenue before was not NaN. *)
Theorem revenue_field_stores_nonneg :
  forall (Number : jsstring -> binary64) (text : jsstring) (revenue : binary64),
    not_nan revenue ->
    b64_nonneg (EnUI.onRevenueChange Number text revenue) = true /\
    b64_nonneg (EsUI.onRevenueChange Number text revenue) = true /\
    b64_nonneg (VariantUI.onRevenueChange Number text revenue) = true.
Proof.
  intros Number text revenue Hr.
  assert (Hclamp : forall n : binary64,
             not_nan (if isFinite n then n else revenue)).
  { intros n. destruct (isFinite n) eqn:Hn; [apply isFinite_not_nan, Hn | exact Hr]. }
  split; [| split].
  - unfold EnUI.onRevenueChange, EnUI.clampNumber. cbv zeta. rewrite lit_0_eq.
    apply b64_max_zero_nonneg, b64_round_not_nan, Hclamp.
  - unfold EsUI.onRevenueChange, EsUI.clampNumber. cbv zeta. rewrite lit_0_eq.
    apply b64_max_zero_nonneg, b64_round_not_nan, Hclamp.
  - unfold VariantUI.onRevenueChange, VariantUI.clampNumber. cbv zeta.
    rewrite lit_0_eq.
    apply b64_max_zero_nonneg, b64_round_not_nan, Hclamp.
Qed.

Lemma revenue_field_stores_nonneg_witness :
  let Number : jsstring -> binary64 := fun _ => lit (-3.5) in
  let text : jsstring := [45; 51; 46; 53]%N in
  not_nan (@lit binary64 _ 14000000) /\
  (b64_nonneg (EnUI.onRevenueChange Number text (lit 14000000)) = true /\
   b64_nonneg (EsUI.onRevenueChange Number text (lit 14000000)) = true /\
   b64_nonneg (VariantUI.onRevenueChange Number text (lit 14000000)) = true).
Proof.
  cbv zeta.
  assert (Hrevenue : not_nan (@lit binary64 _ 14000000)) by (vm_compute; discriminate).
  split; [exact Hrevenue |].
  exact (revenue_field_stores_nonneg (fun _ => lit (-3.5)) [45; 51; 46; 53]%N
           (lit 14000000) Hrevenue).
Defined.

(** ** The blur handler of the number fields *)

Lemma SFcompare_refl (x : binary64) : not_nan x -> SFcompare x x = Some Eq.
Proof.
  intros Hx. destruct x as [s | s | | s m e]; cbn [SFcompare].
  - reflexivity.
  - destruct s; reflexivity.
  - contradiction.
  - rewrite Z.compare_refl, Pos.compare_cont_refl. destruct s; reflexivity.
Qed.

Lemma b64_max_cases (a b : binary64) :
  not_nan a -> not_nan b ->
  (exists sa sb, a = S754_zero sa /\ b = S754_zero sb
                 /\ b64_max a b = S754_zero (sa && sb)) \/
  (SFltb a b = true /\ b64_max a b = b) \/
  (SFltb a b = false /\ b64_max a b = a).
Proof.
  intros Ha Hb.
  destruct a as [sa | sa | | sa ma ea]; try contradiction;
    destruct b as [sb | sb | | sb mb eb]; try contradiction;
    try (left; exists sa, sb; repeat split; fail);
    right; cbn [b64_max];
    match goal with
    | |- context [SFltb ?x ?y] =>
        destruct (SFltb x y); [left | right]; split; reflexivity
    end.
Qed.

Lemma b64_max_ge_left (lo n : binary64) :
  not_nan lo -> not_nan n -> SFleb lo (b64_max lo n) = true.
Proof.
  intros Hlo Hn.
  destruct (b64_max_cases lo n Hlo Hn)
    as [(sa & sb & -> & -> & ->) | [[Hlt ->] | [_ ->]]].
  - reflexivity.
  - unfold SFleb, SFltb in *. destruct (SFcompare lo n) as [[] |]; congruence.
  - unfold SFleb. rewrite (SFcompare_refl lo Hlo). reflexivity.
Qed.

Lemma b64_max_finite (a b : binary64) :
  isFinite a = true -> isFinite b = true -> isFinite (b64_max a b) = true.
Proof.
  intros Ha Hb.
  destruct (b64_max_cases a b (isFinite_not_nan a Ha) (isFinite_not_nan b Hb))
    as [(sa & sb & _ & _ & ->) | [[_ ->] | [_ ->]]]; [reflexivity | assumption ..].
Qed.

(** X11: leaving a number field ([onBlur], Spanish page and third
    variant).  If the draft is not read as a finite number, the previous
    value is handed on unchanged, even when it is below [min]; if it is,
    the value handed on is at least [min]; and the value handed on is
    finite whenever the previous value and [min] are. *)
Theorem onBlur_keeps_or_clamps :
  forall (Number : jsstring -> binary64) (min : option binary64)
         (draft : jsstring) (value : binary64),
    let es := EsUI.parseEsNumber Number S754_nan draft in
    let va := Number (trim (remove_all comma draft)) in
    (isFinite es = false -> EsUI.onBlur Number min draft value = value) /\
    (isFinite va = false -> VariantUI.onBlur Number min draft value = value) /\
    (forall lo, min = Some lo -> not_nan lo ->
                (isFinite es = true ->
                 SFleb lo (EsUI.onBlur Number min draft value) = true) /\
                (isFinite va = true ->
                 SFleb lo (VariantUI.onBlur Number min draft value) = true)) /\
    (isFinite value = true -> (forall lo, min = Some lo -> isFinite lo = true) ->
     isFinite (EsUI.onBlur Number min draft value) = true /\
     isFinite (VariantUI.onBlur Number min draft value) = true).
Proof.
  intros Number min draft value es va.
  unfold EsUI.onBlur, VariantUI.onBlur. cbv zeta. fold es. fold va.
  split; [intros ->; reflexivity |].
  split; [intros ->; reflexivity |].
  split.
  - intros lo -> Hlo. split; intros Hfin; rewrite Hfin;
      apply b64_max_ge_left; try assumption; apply isFinite_not_nan, Hfin.
  - intros Hv Hmin.
    split.
    + destruct (isFinite es) eqn:Hes; [| exact Hv].
      destruct min as [lo |]; [| exact Hes].
      apply b64_max_finite; [apply (Hmin lo eq_refl) | exact Hes].
    + destruct (isFinite va) eqn:Hva; [| exact Hv].
      destruct min as [lo |]; [| exact Hva].
      apply b64_max_finite; [apply (Hmin lo eq_refl) | exact Hva].
Qed.

Lemma onBlur_keeps_or_clamps_witness :
  EsUI.onBlur (fun _ => S754_nan) (Some (lit 0)) [120]%N (lit (-1)) = lit (-1) /\
  SFleb (lit 0) (EsUI.onBlur (fun _ => lit (-5)) (Some (lit 0)) [45; 53]%N (lit 7))
  = true /\
  isFinite (VariantUI.onBlur (fun _ => lit (-5)) (Some (lit 0)) [45; 53]%N (lit 7))
  = true.
Proof.
  split; [| split].
  - apply (onBlur_keeps_or_clamps (fun _ => S754_nan) (Some (lit 0)) [120]%N (lit (-1))).
    reflexivity.
  - apply (onBlur_keeps_or_clamps (fun _ => lit (-5)) (Some (lit 0)) [45; 53]%N (lit 7)
             ) with (lo := lit 0); try reflexivity. discriminate.
  - apply (onBlur_keeps_or_clamps (fun _ => lit (-5)) (Some (lit 0)) [45; 53]%N (lit 7)).
    + reflexivity.
    + intros lo [= <-]. reflexivity.
Defined.

(** ** The revenue field stores whole numbers *)

Lemma digits2_pos_size (p : positive) : digits2_pos p = Pos.size p.
Proof. induction p as [p IH | p IH |]; cbn; congruence. Qed.

Lemma digits2_pos_iter_xO (k n : positive) :
  digits2_pos (Pos.iter xO k n) = (digits2_pos k + n)%positive.
Proof.
  induction n as [| n IH] using Pos.peano_ind.
  - cbn. lia.
  - rewrite Pos.iter_succ. cbn [digits2_pos]. rewrite IH. lia.
Qed.

Lemma Zpos_iter_xO (k n : positive) :
  Z.pos (Pos.iter xO k n) = (Z.pos k * 2 ^ Z.pos n)%Z.
Proof.
  induction n as [| n IH] using Pos.peano_ind.
  - cbn. lia.
  - rewrite Pos.iter_succ, Pos2Z.inj_xO, IH, Pos2Z.inj_succ, Z.pow_succ_r by lia.
    ring.
Qed.

(** A positive integer of at most 53 bits is represented exactly. *)
Lemma binary_round_small_integer (s : bool) (k : positive) :
  (Z.pos (digits2_pos k) <= 53)%Z ->
  exists m e, binary_round prec emax s k 0 = S754_finite s m e /\
              (e <= 0)%Z /\ (Z.pos m = Z.pos k * 2 ^ (- e))%Z.
Proof.
  intros Hd. unfold binary_round.
  assert (Hfexp : forall d, (1 <= d <= 53)%Z -> fexp prec emax d = (d - 53)%Z).
  { intros d Hdd. unfold fexp, emin, prec, emax. lia. }
  rewrite Z.add_0_r, Hfexp by lia.
  unfold shl_align.
  assert (Haux : forall mz ez,
             Z.pos (digits2_pos mz) = 53%Z -> (-52 <= ez <= 0)%Z ->
             binary_round_aux prec emax s (Z.pos mz) ez loc_Exact
             = S754_finite s mz ez).
  { intros mz ez Hmz Hez. unfold binary_round_aux, shr_fexp.
    cbn [Zdigits2 shr_record_of_loc]. rewrite Hmz.
    assert (Hf : fexp prec emax (53 + ez) = ez)
      by (unfold fexp, emin, prec, emax; lia).
    rewrite Hf, Z.sub_diag. cbn [shr shr_m loc_of_shr_record round_nearest_even
                                 Zdigits2 shr_record_of_loc].
    rewrite Hmz, Hf, Z.sub_diag. cbn [shr shr_m].
    destruct (ez <=? emax - prec)%Z eqn:Hle; [reflexivity |].
    unfold emax, prec in Hle. lia. }
  destruct (Z.pos (digits2_pos k) - 53 - 0)%Z as [| d | d] eqn:Hdiff; try lia.
  - exists k, 0%Z. rewrite Haux by lia. cbn. split; [reflexivity | lia].
  - exists (Pos.iter xO k d), (Z.pos (digits2_pos k) - 53)%Z.
    rewrite Haux.
    + split; [reflexivity |]. split; [lia |].
      rewrite Zpos_iter_xO. f_equal. f_equal. lia.
    + rewrite digits2_pos_iter_xO. lia.
    + lia.
Qed.

Lemma digits2_pos_bound (k : positive) (n : Z) :
  (0 <= n)%Z -> (Z.pos k <= 2 ^ n)%Z -> (Z.pos (digits2_pos k) <= n + 1)%Z.
Proof.
  intros Hn Hk. rewrite digits2_pos_size.
  pose proof (Pos.size_le k) as Hsz.
  assert (H2 : (2 ^ Z.pos (Pos.size k) <= 2 * Z.pos k)%Z).
  { rewrite <- Pos2Z.inj_pow. change (2 * Z.pos k)%Z with (Z.pos k~0). lia. }
  destruct (Z.le_gt_cases (Z.pos (Pos.size k)) (n + 1)) as [Hle | Hgt]; [exact Hle |].
  assert (H3 : (2 ^ (n + 2) <= 2 ^ Z.pos (Pos.size k))%Z)
    by (apply Z.pow_le_mono_r; lia).
  rewrite Z.pow_add_r in H3 by lia. lia.
Qed.

Lemma valid_mantissa_bound (s : bool) (m : positive) (e : Z) :
  valid_binary prec emax (S754_finite s m e) = true -> (Z.pos m < 2 ^ 53)%Z.
Proof.
  cbn [valid_binary]. unfold bounded, canonical_mantissa.
  rewrite andb_true_iff, Z.eqb_eq. intros [Hc _].
  assert (Hd : (Z.pos (digits2_pos m) <= 53)%Z)
    by (unfold fexp, emin, prec, emax in Hc; lia).
  rewrite digits2_pos_size in Hd.
  pose proof (Pos.size_gt m) as Hgt.
  assert (H2 : (Z.pos m < 2 ^ Z.pos (Pos.size m))%Z)
    by (rewrite <- Pos2Z.inj_pow; lia).
  assert (H3 : (2 ^ Z.pos (Pos.size m) <= 2 ^ 53)%Z)
    by (apply Z.pow_le_mono_r; lia).
  lia.
Qed.

(** [Math.round] of a well-formed finite number is a finite whole number. *)
Lemma b64_round_integer (x : binary64) :
  isFinite x = true -> valid_binary prec emax x = true ->
  isFinite (b64_round x) = true /\ b64_is_integer (b64_round x) = true.
Proof.
  intros Hfin Hvalid.
  destruct x as [s | s | | s m e]; try discriminate Hfin; [split; reflexivity |].
  pose proof (valid_mantissa_bound s m e Hvalid) as Hm.
  cbn [b64_round b64_is_integer].
  destruct (0 <=? e)%Z eqn:He; [cbn; rewrite He; split; reflexivity |].
  apply Z.leb_gt in He. cbv zeta.
  set (d := (2 ^ (- e))%Z).
  assert (Hd : (2 <= d)%Z).
  { subst d. replace (- e)%Z with (1 + (- e - 1))%Z by lia.
    rewrite Z.pow_add_r by lia.
    assert (0 < 2 ^ (- e - 1))%Z by (apply Z.pow_pos_nonneg; lia). lia. }
  assert (Hq : (0 <= Z.pos m / d /\ 2 * (Z.pos m / d) <= Z.pos m)%Z).
  { split; [apply Z.div_pos; lia |].
    pose proof (Z.mul_div_le (Z.pos m) d ltac:(lia)) as Hmd.
    assert (0 <= Z.pos m / d)%Z by (apply Z.div_pos; lia). nia. }
  assert (Hk : forall k : Z,
             (k = Z.pos m / d \/ k = Z.pos m / d + 1)%Z ->
             isFinite (match k with
                       | Z.pos p => binary_round prec emax s p 0
                       | _ => S754_zero s
                       end) = true /\
             b64_is_integer (match k with
                             | Z.pos p => binary_round prec emax s p 0
                             | _ => S754_zero s
                             end) = true).
  { intros k Hkq. destruct k as [| p | p]; try (split; reflexivity).
    assert (Hp : (Z.pos p <= 2 ^ 52)%Z).
    { assert (Z.pos m < 2 * 2 ^ 52)%Z by (change (2 * 2 ^ 52)%Z with (2 ^ 53)%Z; lia).
      lia. }
    destruct (binary_round_small_integer s p
                (digits2_pos_bound p 52 ltac:(lia) Hp))
      as (mz & ez & -> & Hez & Hmz).
    split; [reflexivity |]. cbn [b64_is_integer].
    destruct (0 <=? ez)%Z; [reflexivity |].
    rewrite Hmz, Z.mod_mul; [reflexivity |].
    apply Z.pow_nonzero; lia. }
  destruct s.
  - destruct (d <? 2 * (Z.pos m mod d))%Z; apply Hk; auto.
  - destruct (d <=? 2 * (Z.pos m mod d))%Z; apply Hk; auto.
Qed.

Lemma b64_max_zero_integer (x : binary64) :
  isFinite x = true -> b64_is_integer x = true ->
  isFinite (b64_max (S754_zero false) x) = true /\
  b64_is_integer (b64_max (S754_zero false) x) = true.
Proof.
  intros Hfin Hint.
  destruct x as [s | s | | s m e]; try discriminate Hfin; [split; reflexivity |].
  cbn [b64_max]. destruct (SFltb _ _); split; (reflexivity || assumption).
Qed.

(** X12: the revenue field stores finite whole numbers: in each of the
    three pages, when the revenue before is a well-formed finite number
    and [Number] returns well-formed numbers, the next revenue is finite,
    a whole number, and zero or positive. *)
Theorem revenue_field_stores_whole_numbers :
  forall (Number : jsstring -> binary64) (text : jsstring) (revenue : binary64),
    (forall s, valid_binary prec emax (Number s) = true) ->
    isFinite revenue = true -> valid_binary prec emax revenue = true ->
    let en := EnUI.onRevenueChange Number text revenue in
    let es := EsUI.onRevenueChange Number text revenue in
    let va := VariantUI.onRevenueChange Number text revenue in
    (isFinite en = true /\ b64_is_integer en = true /\ b64_nonneg en = true) /\
    (isFinite es = true /\ b64_is_integer es = true /\ b64_nonneg es = true) /\
    (isFinite va = true /\ b64_is_integer va = true /\ b64_nonneg va = true).
Proof.
  intros Number text revenue HNumber Hfin Hvalid en es va.
  assert (Hclamp : forall n : binary64,
             valid_binary prec emax n = true ->
             let c := if isFinite n then n else revenue in
             isFinite c = true /\ valid_binary prec emax c = true).
  { intros n Hn. cbv zeta. destruct (isFinite n) eqn:Hfn; split; assumption. }
  assert (Hstore : forall c : binary64,
             isFinite c = true -> valid_binary prec emax c = true ->
             let r := b64_max (lit 0) (b64_round c) in
             isFinite r = true /\ b64_is_integer r = true /\ b64_nonneg r = true).
  { intros c Hc Hvc. cbv zeta. rewrite lit_0_eq.
    destruct (b64_round_integer c Hc Hvc) as [Hrf Hri].
    destruct (b64_max_zero_integer _ Hrf Hri) as [Hmf Hmi].
    repeat split; try assumption.
    apply b64_max_zero_nonneg, isFinite_not_nan, Hrf. }
  split; [| split].
  - subst en. unfold EnUI.onRevenueChange, EnUI.clampNumber. cbv zeta.
    destruct (Hclamp (Number (remove_all comma (remove_all comma text)))
                (HNumber _)) as [Hc Hvc].
    apply (Hstore _ Hc Hvc).
  - subst es. unfold EsUI.onRevenueChange, EsUI.clampNumber. cbv zeta.
    assert (Hparse : valid_binary prec emax
                       (EsUI.parseEsNumber Number S754_nan text) = true).
    { unfold EsUI.parseEsNumber. cbv zeta.
      destruct (isFinite (Number _)); [apply HNumber | reflexivity]. }
    destruct (Hclamp _ Hparse) as [Hc Hvc].
    apply (Hstore _ Hc Hvc).
  - subst va. unfold VariantUI.onRevenueChange, VariantUI.clampNumber. cbv zeta.
    destruct (Hclamp (Number (remove_all comma (remove_all comma text)))
                (HNumber _)) as [Hc Hvc].
    apply (Hstore _ Hc Hvc).
Qed.

Lemma revenue_field_stores_whole_numbers_witness :
  let Number : jsstring -> binary64 := fun _ => lit 1234.5 in
  let en := EnUI.onRevenueChange Number [49]%N (lit 14000000) in
  let es := EsUI.onRevenueChange Number [49]%N (lit 14000000) in
  let va := VariantUI.onRevenueChange Number [49]%N (lit 14000000) in
  (isFinite en = true /\ b64_is_integer en = true /\ b64_nonneg en = true) /\
  (isFinite es = true /\ b64_is_integer es = true /\ b64_nonneg es = true) /\
  (isFinite va = true /\ b64_is_integer va = true /\ b64_nonneg va = true).
Proof.
  assert (Hnumber : forall s : jsstring,
             valid_binary prec emax ((fun _ : jsstring => @lit binary64 _ 1234.5) s)
             = true) by (intros s; vm_compute; reflexivity).
  assert (Hfinite : isFinite (@lit binary64 _ 14000000) = true)
    by (vm_compute; reflexivity).
  assert (Hvalid : valid_binary prec emax (@lit binary64 _ 14000000) = true)
    by (vm_compute; reflexivity).
  exact (revenue_field_stores_whole_numbers (fun _ => lit 1234.5) [49]%N
           (lit 14000000) Hnumber Hfinite Hvalid).
Defined.

(** ** Zero denominators on screen *)

(** X13: with an investment of zero the two ROI figures are shown
    differently: the base ROI cell shows a dash, but the ROI cell of every
    scenario row, which calls [pct] without the finiteness test, shows
    "0%".  This holds in each page, however finite numbers are printed. *)
Theorem zero_investment_roi_cells :
  forall (print : binary64 -> nat -> jsstring) (st : Inputs binary64),
    (investmentYear1 st === lit 0) = true ->
    roi2yBase_cell print (En.calc st) = dash /\
    Forall (fun s => roi2yTotal_cell print s = [digit_zero; percent_sign])
           (scenarioResults (En.calc st)).
Proof.
  intros print st Hz. split.
  - unfold roi2yBase_cell, En.calc. cbn [roi2yBase]. rewrite Hz. reflexivity.
  - pose proof (calc_roi2yTotal_sentinel st Hz) as Hall.
    apply (Forall_impl _ (P := fun r => roi2yTotal r = Infinity)); [| exact Hall].
    intros r Hr. unfold roi2yTotal_cell, pct. rewrite Hr. reflexivity.
Qed.

Lemma zero_investment_roi_cells_witness :
  roi2yBase_cell (fun _ _ => []) (En.calc (num := binary64) zero_inputs) = dash /\
  Forall (fun s => roi2yTotal_cell (fun _ _ => []) s = [digit_zero; percent_sign])
         (scenarioResults (En.calc (num := binary64) zero_inputs)).
Proof.
  apply (zero_investment_roi_cells (fun _ _ => []) zero_inputs). reflexivity.
Defined.

(** X14: the payback cells show a dash for a zero denominator: the base
    cell when replacedProduction is zero, and a scenario's cell when
    annualSavings + incrementalProfit is zero. *)
Theorem zero_denominator_payback_cells :
  forall (print : binary64 -> nat -> jsstring) (st : Inputs binary64),
    ((replacedProduction (En.calc st) === lit 0) = true ->
     paybackMonthsBase_cell print (En.calc st) = dash) /\
    Forall (fun s =>
              (annualSavings (En.calc st) + incrementalProfit s === lit 0) = true ->
              paybackMonthsUpside_cell print s = dash)
           (scenarioResults (En.calc st)).
Proof.
  intros print st. split.
  - intros Hz. unfold paybackMonthsBase_cell, En.calc in *.
    cbn [paybackMonthsBase replacedProduction] in *. rewrite Hz. reflexivity.
  - pose proof (calc_paybackMonthsUpside_sentinel st) as Hall.
    apply (Forall_impl _ (P := fun r =>
             (annualSavings (En.calc st) + incrementalProfit r === lit 0) = true ->
             paybackMonthsUpside r = Infinity)); [| exact Hall].
    intros r Hr Hz. unfold paybackMonthsUpside_cell. rewrite (Hr Hz). reflexivity.
Qed.

Lemma zero_denominator_payback_cells_witness :
  paybackMonthsBase_cell (fun _ _ => []) (En.calc (num := binary64) zero_inputs) = dash.
Proof.
  apply (zero_denominator_payback_cells (fun _ _ => []) zero_inputs). reflexivity.
Defined.

(** ** A scenario without sales uplift *)

Lemma roi_with_zero_uplift (a rev su g inv : binary64) :
  isFinite rev = true -> isFinite g = true -> (su === lit 0) = true ->
  (if inv === lit 0 then Infinity else (a + rev * su * g - inv) / inv)
  = (if inv === lit 0 then Infinity else (a - inv) / inv).
Proof.
  intros Hrev Hg Hs.
  destruct (inv === lit 0) eqn:Hz; [reflexivity |].
  assert (Hip : exists z, rev * su * g = S754_zero z).
  { destruct su as [su | su | | su mu eu];
      try (destruct su; discriminate Hs); try discriminate Hs.
    destruct rev as [sr | sr | | sr mr er]; try discriminate Hrev;
      destruct g as [sg | sg | | sg mg eg]; try discriminate Hg;
      cbn; eauto. }
  destruct Hip as [z ->].
  destruct inv as [si | si | | si mi ei]; try discriminate Hz.
  all: destruct a as [[] | sa | | sa ma ea], z;
    cbn [add sub binary64_number SFadd SFsub]; reflexivity.
Qed.

(** X15: in binary64, a scenario whose salesUplift is zero has exactly the
    base ROI: its roi2yTotal equals roi2yBase, whenever revenue and
    grossMargin are finite (with an infinite revenue the product
    revenue * 0 is NaN). *)
Theorem zero_uplift_roi_is_base_roi :
  forall st : Inputs binary64,
    isFinite (revenue st) = true -> isFinite (grossMargin st) = true ->
    Forall (fun r => (sr_salesUplift r === lit 0) = true ->
                     roi2yTotal r = roi2yBase (En.calc st))
           (scenarioResults (En.calc st)).
Proof.
  intros st Hrev Hg. unfold En.calc. cbn [scenarioResults roi2yBase].
  apply Forall_map, Forall_forall. intros s _.
  cbn [sr_salesUplift roi2yTotal]. intros Hs.
  apply roi_with_zero_uplift; assumption.
Qed.

Lemma zero_uplift_roi_is_base_roi_witness :
  let st : Inputs binary64 :=
    with_scenarios default_inputs
      [ {| name := A; perfUplift := lit 0.05; salesUplift := lit 0 |} ] in
  Forall (fun r => (sr_salesUplift r === lit 0) = true ->
                   roi2yTotal r = roi2yBase (En.calc st))
         (scenarioResults (En.calc st)).
Proof.
  cbv zeta.
  assert (Hrevenue : isFinite (@lit binary64 _ 14000000) = true)
    by (vm_compute; reflexivity).
  assert (Hmargin : isFinite (@lit binary64 _ 0.4) = true)
    by (vm_compute; reflexivity).
  exact (zero_uplift_roi_is_base_roi
           (with_scenarios default_inputs
              [ {| name := A; perfUplift := lit 0.05; salesUplift := lit 0 |} ])
           Hrevenue Hmargin).
Defined.

(** ** Relations between the figures, in exact arithmetic *)

Lemma calc_scenarioResults_map {num : Type} `{JsNumber num} (st : Inputs num) :
  scenarioResults (En.calc st) =
  map (fun s =>
         {| sr_name := name s;
            sr_perfUplift := perfUplift s;
            sr_salesUplift := salesUplift s;
            incrementalSales := revenue st * salesUplift s;
            incrementalProfit := (revenue st * salesUplift s) * grossMargin st;
            roi2yTotal :=
              if investmentYear1 st === lit 0 then Infinity
              else (annualSavings (En.calc st)
                    + (revenue st * salesUplift s) * grossMargin st
                    - investmentYear1 st) / investmentYear1 st;
            paybackMonthsUpside :=
              if annualSavings (En.calc st)
                 + (revenue st * salesUplift s) * grossMargin st === lit 0
              then Infinity
              else (investmentYear1 st
                    / (annualSavings (En.calc st)
                       + (revenue st * salesUplift s) * grossMargin st))
                   * lit 12 |})
      (scenarios st).
Proof. reflexivity. Qed.

Lemma finite_inputs_scenarios (st : Inputs xrat) :
  finite_inputs st = true ->
  forall s, In s (scenarios st) -> exists u : Qc, salesUplift s = XFin u.
Proof.
  unfold finite_inputs. rewrite !andb_true_iff. intros [_ Hall] s Hin.
  rewrite forallb_forall in Hall. specialize (Hall s Hin).
  unfold finite_scenario in Hall. rewrite andb_true_iff in Hall.
  destruct Hall as [_ Hu]. apply x_isFinite_XFin, Hu.
Qed.

(** X16: in exact arithmetic, on finite inputs with a non-zero
    investment, the ROI of a scenario is the base ROI plus the scenario's
    incremental profit over the investment. *)
Theorem roi2yTotal_is_base_plus_profit_exact :
  forall st : Inputs xrat,
    finite_inputs st = true ->
    (investmentYear1 st === lit 0) = false ->
    Forall (fun r => roi2yTotal r
                     = roi2yBase (En.calc st) + incrementalProfit r / investmentYear1 st)
           (scenarioResults (En.calc st)).
Proof.
  intros st Hfin Hnz.
  pose proof (finite_inputs_scenarios st Hfin) as Hsc.
  exact_chain st Hfin.
  assert (Hbase : roi2yBase (En.calc st) =
                  (if investmentYear1 st === lit 0 then Infinity
                   else (annualSavings (En.calc st) - investmentYear1 st)
                        / investmentYear1 st)) by reflexivity.
  rewrite Hbase, Hnz, calc_scenarioResults_map.
  apply Forall_map, Forall_forall. intros s Hin.
  destruct (Hsc s Hin) as [u Hu].
  cbn [roi2yTotal incrementalProfit]. rewrite Hnz, Has, Hrev, Hg, Hu.
  rewrite Hinv in Hnz |- *.
  cbn [strict_eq lit xrat_number xeqb] in Hnz.
  cbn [add sub mul div xrat_number xadd xsub xmul].
  rewrite !xdiv_XFin by exact Hnz. cbn [xadd].
  f_equal. apply Qc_eqb_false in Hnz. field. exact Hnz.
Qed.

Lemma roi2yTotal_is_base_plus_profit_exact_witness :
  Forall (fun r => roi2yTotal r
                   = roi2yBase (En.calc (num := xrat) default_inputs)
                     + incrementalProfit r / investmentYear1 default_inputs)
         (scenarioResults (En.calc (num := xrat) default_inputs)).
Proof.
  assert (Hfin : finite_inputs (default_inputs (num := xrat)) = true)
    by (vm_compute; reflexivity).
  assert (Hnz : (investmentYear1 (default_inputs (num := xrat)) === lit 0) = false)
    by (vm_compute; reflexivity).
  exact (roi2yTotal_is_base_plus_profit_exact default_inputs Hfin Hnz).
Defined.

(** X17: in exact arithmetic, on finite inputs, a scenario whose
    salesUplift is zero repeats the base figures: its roi2yTotal is
    roi2yBase and its paybackMonthsUpside is paybackMonthsBase. *)
Theorem zero_uplift_repeats_base_exact :
  forall st : Inputs xrat,
    finite_inputs st = true ->
    Forall (fun r => (sr_salesUplift r === lit 0) = true ->
                     roi2yTotal r = roi2yBase (En.calc st) /\
                     paybackMonthsUpside r = paybackMonthsBase (En.calc st))
           (scenarioResults (En.calc st)).
Proof.
  intros st Hfin.
  pose proof (finite_inputs_scenarios st Hfin) as Hsc.
  exact_chain st Hfin.
  assert (Hbase : roi2yBase (En.calc st) =
                  (if investmentYear1 st === lit 0 then Infinity
                   else (annualSavings (En.calc st) - investmentYear1 st)
                        / investmentYear1 st)) by reflexivity.
  assert (Hpay : paybackMonthsBase (En.calc st) =
                 (if replacedProduction (En.calc st) === lit 0 then Infinity
                  else (investmentYear1 st / replacedProduction (En.calc st))
                       * lit 12)) by reflexivity.
  rewrite Hbase, Hpay, calc_scenarioResults_map.
  apply Forall_map, Forall_forall. intros s Hin.
  destruct (Hsc s Hin) as [u Hu].
  cbn [roi2yTotal paybackMonthsUpside sr_salesUplift].
  rewrite Has, Hrp, Hrev, Hg, Hinv, Hu.
  cbn [strict_eq lit xrat_number xeqb]. intros Hu0.
  apply Qc_eqb_true in Hu0. subst u.
  cbn [add sub mul div xrat_number xadd xsub xmul].
  assert (Hsame : forall x y z w : Qc,
             (x - (x - x * y) + z * Q2Qc 0 * w = x * y)%Qc) by (intros; ring).
  assert (Hsame' : forall x y : Qc, (x - (x - x * y) = x * y)%Qc) by (intros; ring).
  rewrite Hsame, Hsame'. split; reflexivity.
Qed.

Lemma zero_uplift_repeats_base_exact_witness :
  let st : Inputs xrat :=
    with_scenarios default_inputs
      [ {| name := A; perfUplift := lit 0.05; salesUplift := lit 0 |} ] in
  Forall (fun r => (sr_salesUplift r === lit 0) = true ->
                   roi2yTotal r = roi2yBase (En.calc st) /\
                   paybackMonthsUpside r = paybackMonthsBase (En.calc st))
         (scenarioResults (En.calc st)).
Proof.
  cbv zeta.
  assert (Hfin : finite_inputs
                   (with_scenarios (default_inputs (num := xrat))
                      [ {| name := A; perfUplift := lit 0.05; salesUplift := lit 0 |} ])
                 = true) by (vm_compute; reflexivity).
  exact (zero_uplift_repeats_base_exact _ Hfin).
Defined.

(** X18: in exact arithmetic, on finite inputs with a non-zero investment
    and a non-zero replacedProduction, the two headline figures determine
    each other: (1 + roi2yBase) * paybackMonthsBase = 12. *)
Theorem roi_times_payback_exact :
  forall st : Inputs xrat,
    finite_inputs st = true ->
    (investmentYear1 st === lit 0) = false ->
    (replacedProduction (En.calc st) === lit 0) = false ->
    (lit 1 + roi2yBase (En.calc st)) * paybackMonthsBase (En.calc st) = lit 12.
Proof.
  intros st Hfin Hinz Hrnz. exact_chain st Hfin.
  assert (Hbase : roi2yBase (En.calc st) =
                  (if investmentYear1 st === lit 0 then Infinity
                   else (annualSavings (En.calc st) - investmentYear1 st)
                        / investmentYear1 st)) by reflexivity.
  assert (Hpay : paybackMonthsBase (En.calc st) =
                 (if replacedProduction (En.calc st) === lit 0 then Infinity
                  else (investmentYear1 st / replacedProduction (En.calc st))
                       * lit 12)) by reflexivity.
  rewrite Hbase, Hpay, Hinz, Hrnz, Has, Hrp, Hinv.
  rewrite Hinv in Hinz. rewrite Hrp in Hrnz.
  cbn [strict_eq lit xrat_number xeqb] in Hinz, Hrnz.
  cbn [add sub mul div lit xrat_number xsub].
  rewrite !xdiv_XFin by assumption. cbn [xadd xmul].
  apply Qc_eqb_false in Hinz, Hrnz.
  f_equal. generalize (Q2Qc 12). intros twelve. field.
  repeat split; try assumption; intros E; apply Hrnz; rewrite E; ring.
Qed.

Lemma roi_times_payback_exact_witness :
  (lit 1 + roi2yBase (En.calc (num := xrat) default_inputs))
  * paybackMonthsBase (En.calc (num := xrat) default_inputs) = lit 12.
Proof.
  assert (Hfin : finite_inputs (default_inputs (num := xrat)) = true)
    by (vm_compute; reflexivity).
  assert (Hinz : (investmentYear1 (default_inputs (num := xrat)) === lit 0) = false)
    by (vm_compute; reflexivity).
  assert (Hrnz : (replacedProduction (En.calc (num := xrat) default_inputs) === lit 0)
                 = false) by (vm_compute; reflexivity).
  exact (roi_times_payback_exact default_inputs Hfin Hinz Hrnz).
Defined.

(** Under rounding the payback half of the zero-uplift property is lost:
    with a demoBudgetYear1 of 1 and a replacement share of 1e-17,
    replacedProduction is 1e-17 but annualSavings = 1 - 1 is zero, so the
    base payback is a number and the payback of a scenario without uplift
    is the sentinel. *)
Example zero_uplift_payback_differs_in_binary64 :
  let st : Inputs binary64 :=
    {| revenue := lit 1; marketingPct := lit 1; contentPct := lit 1;
       demoAllocPct := lit 1; replacementPct := lit 1e-17;
       investmentYear1 := lit 50000; grossMargin := lit 0.4;
       scenarios := [ {| name := A; perfUplift := lit 0.05; salesUplift := lit 0 |} ] |} in
  isFinite (paybackMonthsBase (En.calc st)) = true /\
  map paybackMonthsUpside (scenarioResults (En.calc st)) = [Infinity].
Proof. cbv zeta. split; vm_compute; reflexivity. Qed.

(** ** Budgets are not negative *)




